(** * gcp-helper: resource lifecycle and data movement helpers

    A shallow embedding of the helper classes of the repository
    ([bigquery.py], [storage.py], [pubsub.py], [bigtable.py], [redis.py],
    [kubernetes.py], [utils.py]) and of the client libraries they call.

    The helper methods are thin: each one formats a resource path and issues
    one or a few calls to a client library.  A method is therefore embedded as
    a program over the client calls it makes ([prog]), in the order the source
    makes them.  The client libraries and the operating system are embedded
    separately as handlers over an explicit state ([World]), following their
    documented contracts.  Running a program against a world gives the result
    (a value or a raised exception), the final world and the trace of calls. *)

From Stdlib Require Import ZArith List Ascii String Lia Bool.
From Stdlib.Strings Require Import Byte.
From stdpp Require Import gmap strings list fin_maps.

Open Scope string_scope.
Open Scope Z_scope.

(** ** Python values *)

(** Python [str] is represented by its UTF-8 encoding, Python [bytes] by a list
    of bytes.  The exceptions are the ones the helpers, the client libraries
    and the operating system raise on the modelled paths. *)
Inductive exn : Type :=
| AssertionError
| UnicodeDecodeError
| FileNotFoundError
| FileExistsError
| NotADirectoryError
| IsADirectoryError
| BadZipFile
| NotFound           (* google.api_core.exceptions.NotFound (404) *)
| Conflict           (* google.api_core.exceptions.Conflict (409) *)
| AlreadyExists      (* google.api_core.exceptions.AlreadyExists (409) *)
| BadRequest         (* google.api_core.exceptions.BadRequest (400) *)
| InvalidArgument    (* google.api_core.exceptions.InvalidArgument (400) *)
| ApiException (status : Z)      (* kubernetes.client.ApiException *)
| JobFailed (diagnostics : string). (* raised by job.result() from job.error_result *)

Inductive result (A : Type) : Type :=
| Ok (a : A)
| Raise (e : exn).
Arguments Ok {A} a.
Arguments Raise {A} e.

Definition is_ok {A} (r : result A) : bool :=
  match r with Ok _ => true | Raise _ => false end.

(** Truthiness of an optional string ([if partition_field:]) and of an
    optional list ([if cluster_fields:]): [None] and the empty value are
    false. *)
Definition truthy_str (o : option string) : bool :=
  match o with
  | Some (String _ _) => true
  | _ => false
  end.

Definition truthy_list {A} (o : option (list A)) : bool :=
  match o with
  | Some (_ :: _) => true
  | _ => false
  end.

(** ** Strings and paths *)

Definition slash : ascii := "/"%char.

(** [s.split(sep)] for a one-character separator. *)
Fixpoint split_on (sep : ascii) (s : string) : list string :=
  match s with
  | EmptyString => [EmptyString]
  | String c rest =>
      if Ascii.eqb c sep then EmptyString :: split_on sep rest
      else match split_on sep rest with
           | seg :: segs => String c seg :: segs
           | [] => [String c EmptyString]
           end
  end.

Fixpoint contains_char (c : ascii) (s : string) : bool :=
  match s with
  | EmptyString => false
  | String d rest => Ascii.eqb c d || contains_char c rest
  end.

Fixpoint all_slashes (s : string) : bool :=
  match s with
  | EmptyString => true
  | String c rest => Ascii.eqb c slash && all_slashes rest
  end.

(** [p[:p.rfind('/') + 1]] *)
Fixpoint upto_last_slash (p : string) : string :=
  match p with
  | EmptyString => EmptyString
  | String c rest =>
      if contains_char slash rest then String c (upto_last_slash rest)
      else if Ascii.eqb c slash then String c EmptyString
      else EmptyString
  end.

(** [s.rstrip('/')] *)
Fixpoint rstrip_slash (s : string) : string :=
  match s with
  | EmptyString => EmptyString
  | String c rest =>
      match rstrip_slash rest with
      | EmptyString => if Ascii.eqb c slash then EmptyString else String c EmptyString
      | r => String c r
      end
  end.

(** [os.path.dirname] (posixpath): the part up to the last slash, without its
    trailing slashes unless it consists of slashes only. *)
Definition dirname (p : string) : string :=
  let head := upto_last_slash p in
  if all_slashes head then head else rstrip_slash head.

Definition starts_with_slash (p : string) : bool :=
  match p with
  | String c _ => Ascii.eqb c slash
  | EmptyString => false
  end.

(** UTF-8 well-formedness (Unicode, table 3-7), which [bytes.decode("utf-8")]
    checks: overlong forms, surrogates and values above U+10FFFF are
    rejected. *)
Definition is_cont (b : N) : bool := ((128 <=? b) && (b <=? 191))%N.

Definition second_of_3 (b1 b2 : N) : bool :=
  (if b1 =? 224 then (160 <=? b2) && (b2 <=? 191)
   else if b1 =? 237 then (128 <=? b2) && (b2 <=? 159)
   else is_cont b2)%N.

Definition second_of_4 (b1 b2 : N) : bool :=
  (if b1 =? 240 then (144 <=? b2) && (b2 <=? 191)
   else if b1 =? 244 then (128 <=? b2) && (b2 <=? 143)
   else is_cont b2)%N.

Fixpoint utf8_valid (bs : list N) : bool :=
  match bs with
  | [] => true
  | b1 :: r1 =>
      if (b1 <? 128)%N then utf8_valid r1
      else if ((194 <=? b1) && (b1 <=? 223))%N then
        match r1 with
        | b2 :: r2 => is_cont b2 && utf8_valid r2
        | _ => false
        end
      else if ((224 <=? b1) && (b1 <=? 239))%N then
        match r1 with
        | b2 :: b3 :: r3 => second_of_3 b1 b2 && is_cont b3 && utf8_valid r3
        | _ => false
        end
      else if ((240 <=? b1) && (b1 <=? 244))%N then
        match r1 with
        | b2 :: b3 :: b4 :: r4 =>
            second_of_4 b1 b2 && is_cont b3 && is_cont b4 && utf8_valid r4
        | _ => false
        end
      else false
  end.

(** [data.decode("utf-8")] *)
Definition decode_utf8 (data : list byte) : result string :=
  if utf8_valid (map Byte.to_N data) then Ok (string_of_list_byte data)
  else Raise UnicodeDecodeError.

(** [s.encode("utf-8")] *)
Definition encode_utf8 (s : string) : list byte := list_byte_of_string s.

(** ** Backend resources

    The values the client libraries hand out and store.  A resource built on
    the client side ([bigquery.Dataset(ref)], [bigquery.Table(id, schema)])
    has no entity tag; the backend sets one when it stores the resource, so a
    stored resource is told apart from a fresh one of the same name. *)

Record SchemaField := { field_name : string; field_type : string }.

Record Dataset := {
  dataset_ref : string;            (* "project.dataset" *)
  dataset_etag : option nat
}.

Record Table := {
  table_ref : string;              (* "project.dataset.table" *)
  table_schema : list SchemaField;
  time_partitioning : option string;
  clustering_fields : option (list string);
  view_query : option string;
  table_etag : option nat
}.

Record BqClient := { project : string }.

Record LoadJobConfig := { source_format : string }.

Record LoadJob := { job_id : nat }.

Inductive JobState : Type :=
| JobRunning
| JobDone (error_result : option string).

Record JobRecord := {
  job_source_uri : string;
  job_destination : string;
  job_config : LoadJobConfig;
  job_state : JobState
}.

Record Bucket := { bucket_name : string }.

Record Blob := { blob_bucket : string; blob_name : string }.

Record Topic := { topic_name : string }.

Record Subscription := { subscription_name : string; subscription_topic : string }.

Record ReceivedMessage := { ack_id : string; data : list byte }.

Record Cell := { cell_value : list byte; cell_timestamp : Z }.

(** [PartialRowData]: column family -> column qualifier -> cells. *)
Record PartialRowData := {
  row_key : string;
  row_cells : gmap string (gmap string (list Cell))
}.

Record Cluster := { cluster_id : string; location_id : string; serve_nodes : Z }.

Record BtInstanceRef := { bt_instance_id : string }.

Record BtTableRef := { bt_table_instance : string; bt_table_id : string }.

Record RedisInstance := { redis_name : string; tier : string; memory_size_gb : Z }.

Record Operation := { operation_target : string }.

Record ZipFile := { zip_names : list string }.

Inductive open_mode : Type := ModeW | ModeWB.

Record FileHandle := { fh_path : list string }.

(** ** The state of the backends *)

Record BqState := {
  bq_datasets : gmap string Dataset;
  bq_tables : gmap string Table;
  bq_jobs : list JobRecord;
  (* what a load of this URI into this table ends with: [Some d] is a
     failed job with diagnostics [d] *)
  bq_load_outcome : string -> string -> option string;
  bq_next_etag : nat
}.

(** bucket -> blob name -> content *)
Record GcsState := { gcs_buckets : gmap string (gmap string (list byte)) }.

Record SubscriptionState := {
  sub_topic : string;
  backlog : list ReceivedMessage;      (* not yet delivered *)
  outstanding : list ReceivedMessage;  (* delivered, not acknowledged *)
  acked : list string                  (* acknowledged ack ids *)
}.

Record PubSubState := {
  topics : gset string;
  subscriptions : gmap string SubscriptionState
}.

Record BtTable := {
  column_families : list string;
  rows : gmap string PartialRowData
}.

Record BtInstance := {
  bt_clusters : list Cluster;
  bt_tables : gmap string BtTable
}.

Record BigtableState := { bt_instances : gmap string BtInstance }.

Record RedisState := { redis_instances : gmap string RedisInstance }.

(** pods by (namespace, name) *)
Record K8sState := { k8s_pods : gset (string * string) }.

Inductive node : Type :=
| Dir
| File (content : list byte).

(** A POSIX file tree: nodes by absolute path (the list of names from the
    root, which is always a directory) and the working directory. *)
Record FsState := {
  cwd : list string;
  nodes : gmap (list string) node
}.

(** [zipfile]: which byte streams [is_zipfile] accepts, and the names
    [ZipFile(...)] reads from a stream ([None]: it raises [BadZipFile]). *)
Record ZipLib := {
  is_zipfile : list byte -> bool;
  zip_directory : list byte -> option (list string)
}.

Record World := {
  bq : BqState;
  gcs : GcsState;
  pubsub : PubSubState;
  bigtable : BigtableState;
  redis : RedisState;
  k8s : K8sState;
  fs : FsState;
  ziplib : ZipLib
}.

Definition with_bq (w : World) (s : BqState) : World :=
  {| bq := s; gcs := gcs w; pubsub := pubsub w; bigtable := bigtable w;
     redis := redis w; k8s := k8s w; fs := fs w; ziplib := ziplib w |}.

Definition with_gcs (w : World) (s : GcsState) : World :=
  {| bq := bq w; gcs := s; pubsub := pubsub w; bigtable := bigtable w;
     redis := redis w; k8s := k8s w; fs := fs w; ziplib := ziplib w |}.

Definition with_pubsub (w : World) (s : PubSubState) : World :=
  {| bq := bq w; gcs := gcs w; pubsub := s; bigtable := bigtable w;
     redis := redis w; k8s := k8s w; fs := fs w; ziplib := ziplib w |}.

Definition with_bigtable (w : World) (s : BigtableState) : World :=
  {| bq := bq w; gcs := gcs w; pubsub := pubsub w; bigtable := s;
     redis := redis w; k8s := k8s w; fs := fs w; ziplib := ziplib w |}.

Definition with_redis (w : World) (s : RedisState) : World :=
  {| bq := bq w; gcs := gcs w; pubsub := pubsub w; bigtable := bigtable w;
     redis := s; k8s := k8s w; fs := fs w; ziplib := ziplib w |}.

Definition with_k8s (w : World) (s : K8sState) : World :=
  {| bq := bq w; gcs := gcs w; pubsub := pubsub w; bigtable := bigtable w;
     redis := redis w; k8s := s; fs := fs w; ziplib := ziplib w |}.

Definition with_fs (w : World) (s : FsState) : World :=
  {| bq := bq w; gcs := gcs w; pubsub := pubsub w; bigtable := bigtable w;
     redis := redis w; k8s := k8s w; fs := s; ziplib := ziplib w |}.


(** ** Calls to the client libraries and the operating system

    One constructor per library call the helpers make, indexed by the type of
    the value the call returns. *)
Inductive call : Type -> Type :=
(* google.cloud.bigquery.Client *)
| ClientCreateDataset (d : Dataset) (exists_ok : bool) : call Dataset
| ClientDeleteDataset (c : BqClient) (dataset : string)
    (delete_contents not_found_ok : bool) : call unit
| ClientCreateTable (t : Table) (exists_ok : bool) : call Table
| ClientDeleteTable (table : string) (not_found_ok : bool) : call unit
| ClientLoadTableFromUri (uri table_id : string) (cfg : LoadJobConfig) : call LoadJob
| LoadJobResult (j : LoadJob) : call unit
(* google.cloud.storage *)
| StorageCreateBucket (name : string) : call Bucket
| StorageGetBucket (name : string) : call Bucket
| BucketDelete (b : Bucket) : call unit
| BucketCopyBlob (src : Bucket) (blob : Blob) (dst : Bucket) (new_name : string) : call Blob
| BlobDelete (b : Blob) : call unit
(* google.cloud.pubsub_v1 *)
| PublisherCreateTopic (name : string) : call Topic
| PublisherDeleteTopic (topic : string) : call unit
| SubscriberCreateSubscription (name topic : string) : call Subscription
| SubscriberDeleteSubscription (subscription : string) : call unit
| SubscriberPull (subscription : string) (max_messages : Z) : call (list ReceivedMessage)
| SubscriberAcknowledge (subscription : string) (ack_ids : list string) : call unit
(* google.cloud.bigtable *)
| InstanceCreate (i : BtInstanceRef) (clusters : list Cluster) : call Operation
| InstanceDelete (i : BtInstanceRef) : call unit
| TableCreate (t : BtTableRef) (families : list string) : call unit
| TableDelete (t : BtTableRef) : call unit
| TableReadRow (t : BtTableRef) (key : string) : call (option PartialRowData)
(* google.cloud.redis_v1.CloudRedisClient *)
| RedisCreateInstance (parent instance_id : string) (tier : string) (memory : Z) : call Operation
| OperationResult (op : Operation) : call RedisInstance
| RedisDeleteInstance (name : string) : call Operation
(* kubernetes.client.CoreV1Api *)
| DeleteNamespacedPod (name namespace : string) : call unit
(* zipfile, os, builtins *)
| IsZipfile (stream : list byte) : call bool
| ZipFileOpen (stream : list byte) : call ZipFile
| OsMakedirs (name : string) (exist_ok : bool) : call unit
| OpenFile (name : string) (mode : open_mode) : call FileHandle
| FileWrite (fh : FileHandle) (content : list byte) : call unit.

(** A helper method: the calls it makes, each continued with the value the
    call returned.  The helpers catch no exception, so a raised exception ends
    the method. *)
Inductive prog (A : Type) : Type :=
| Ret (a : A)
| Throw (e : exn)
| Vis {X : Type} (c : call X) (k : X -> prog A).
Arguments Ret {A} a.
Arguments Throw {A} e.
Arguments Vis {A X} c k.

Fixpoint bind {A B} (p : prog A) (f : A -> prog B) : prog B :=
  match p with
  | Ret a => f a
  | Throw e => Throw e
  | Vis c k => Vis c (fun x => bind (k x) f)
  end.

Definition perform {X} (c : call X) : prog X := Vis c Ret.

Definition of_result {A} (r : result A) : prog A :=
  match r with
  | Ok a => Ret a
  | Raise e => Throw e
  end.

Declare Scope prog_scope.
Delimit Scope prog_scope with prog.
Notation "x <- c ;; k" := (bind c (fun x => k))
  (at level 100, c at next level, right associativity) : prog_scope.
Notation "c ;; k" := (bind c (fun _ => k))
  (at level 100, right associativity) : prog_scope.
Open Scope prog_scope.

(** [[f(x) for x in xs]] where [f] may raise. *)
Fixpoint map_result {A B} (f : A -> result B) (xs : list A) : result (list B) :=
  match xs with
  | [] => Ok []
  | x :: rest =>
      match f x with
      | Raise e => Raise e
      | Ok y =>
          match map_result f rest with
          | Raise e => Raise e
          | Ok ys => Ok (y :: ys)
          end
      end
  end.

Definition event : Type := { X : Type & call X }.

Definition ev {X} (c : call X) : event := existT X c.

(** ** The client libraries, as handlers over the backend state

    A handler returns the call's result and the new state of its backend
    ([None]: the state is unchanged).  Resource names are opaque keys: the
    naming grammar of each backend is not modelled. *)

Definition handler (S X : Type) : Type := S -> result X * option S.

Definition lift {S X} (get : World -> S) (set : World -> S -> World)
    (f : handler S X) (w : World) : result X * World :=
  match f (get w) with
  | (r, Some s) => (r, set w s)
  | (r, None) => (r, w)
  end.

(** *** BigQuery *)

(** A table belongs to the dataset whose reference, followed by a dot,
    starts its own. *)
Definition in_dataset (d t : string) : bool := String.prefix (d +:+ ".") t.

Definition tables_of (d : string) (s : BqState) : gmap string Table :=
  filter (fun kv => in_dataset d (fst kv) = true) (bq_tables s).

Definition datasets_of (t : string) (s : BqState) : gmap string Dataset :=
  filter (fun kv => in_dataset (fst kv) t = true) (bq_datasets s).

(** [DatasetReference.from_string(s, default_project)]: a name with no
    project part is taken in the client's project. *)
Definition resolve_dataset (c : BqClient) (s : string) : string :=
  if contains_char "."%char s then s else project c +:+ "." +:+ s.

(** [Client.create_dataset(dataset, exists_ok)]: a conflict is raised unless
    [exists_ok], in which case the stored dataset is fetched and returned. *)
Definition bq_create_dataset (d : Dataset) (exists_ok : bool) : handler BqState Dataset :=
  fun s =>
    match bq_datasets s !! dataset_ref d with
    | Some d0 => if exists_ok then (Ok d0, None) else (Raise Conflict, None)
    | None =>
        let stored := {| dataset_ref := dataset_ref d;
                         dataset_etag := Some (bq_next_etag s) |} in
        (Ok stored,
         Some {| bq_datasets := <[dataset_ref d := stored]> (bq_datasets s);
                 bq_tables := bq_tables s;
                 bq_jobs := bq_jobs s;
                 bq_load_outcome := bq_load_outcome s;
                 bq_next_etag := S (bq_next_etag s) |})
    end.

(** [Client.delete_dataset(dataset, delete_contents, not_found_ok)] *)
Definition bq_delete_dataset (c : BqClient) (dataset : string)
    (delete_contents not_found_ok : bool) : handler BqState unit :=
  fun s =>
    let key := resolve_dataset c dataset in
    match bq_datasets s !! key with
    | None => if not_found_ok then (Ok tt, None) else (Raise NotFound, None)
    | Some _ =>
        if delete_contents || Nat.eqb (size (tables_of key s)) 0 then
          (Ok tt,
           Some {| bq_datasets := delete key (bq_datasets s);
                   bq_tables := filter (fun kv => in_dataset key (fst kv) = false) (bq_tables s);
                   bq_jobs := bq_jobs s;
                   bq_load_outcome := bq_load_outcome s;
                   bq_next_etag := bq_next_etag s |})
        else (Raise BadRequest, None)
    end.

(** [Client.create_table(table, exists_ok)] *)
Definition bq_create_table (t : Table) (exists_ok : bool) : handler BqState Table :=
  fun s =>
    match bq_tables s !! table_ref t with
    | Some t0 => if exists_ok then (Ok t0, None) else (Raise Conflict, None)
    | None =>
        if Nat.eqb (size (datasets_of (table_ref t) s)) 0 then (Raise NotFound, None)
        else
          let stored := {| table_ref := table_ref t;
                           table_schema := table_schema t;
                           time_partitioning := time_partitioning t;
                           clustering_fields := clustering_fields t;
                           view_query := view_query t;
                           table_etag := Some (bq_next_etag s) |} in
          (Ok stored,
           Some {| bq_datasets := bq_datasets s;
                   bq_tables := <[table_ref t := stored]> (bq_tables s);
                   bq_jobs := bq_jobs s;
                   bq_load_outcome := bq_load_outcome s;
                   bq_next_etag := S (bq_next_etag s) |})
    end.

(** [Client.delete_table(table, not_found_ok)] *)
Definition bq_delete_table (table : string) (not_found_ok : bool) : handler BqState unit :=
  fun s =>
    match bq_tables s !! table with
    | None => if not_found_ok then (Ok tt, None) else (Raise NotFound, None)
    | Some _ =>
        (Ok tt,
         Some {| bq_datasets := bq_datasets s;
                 bq_tables := delete table (bq_tables s);
                 bq_jobs := bq_jobs s;
                 bq_load_outcome := bq_load_outcome s;
                 bq_next_etag := bq_next_etag s |})
    end.

Definition with_jobs (s : BqState) (jobs : list JobRecord) : BqState :=
  {| bq_datasets := bq_datasets s;
     bq_tables := bq_tables s;
     bq_jobs := jobs;
     bq_load_outcome := bq_load_outcome s;
     bq_next_etag := bq_next_etag s |}.

(** [Client.load_table_from_uri(uri, table_id, job_config)]: starts a load
    job and returns its handle at once; the job runs in the backend. *)
Definition bq_load_table_from_uri (uri table_id : string) (cfg : LoadJobConfig)
    : handler BqState LoadJob :=
  fun s =>
    (Ok {| job_id := length (bq_jobs s) |},
     Some (with_jobs s (bq_jobs s ++ [{| job_source_uri := uri;
                                         job_destination := table_id;
                                         job_config := cfg;
                                         job_state := JobRunning |}]))).

Definition finish_job (s : BqState) (r : JobRecord) : JobRecord :=
  match job_state r with
  | JobDone _ => r
  | JobRunning =>
      {| job_source_uri := job_source_uri r;
         job_destination := job_destination r;
         job_config := job_config r;
         job_state := JobDone (bq_load_outcome s (job_source_uri r) (job_destination r)) |}
  end.

(** [job.result()]: waits until the job is done; raises the job's error if
    it ended with one. *)
Definition bq_job_result (j : LoadJob) : handler BqState unit :=
  fun s =>
    match bq_jobs s !! job_id j with
    | None => (Raise NotFound, None)
    | Some r =>
        let done := finish_job s r in
        let s' := with_jobs s (<[job_id j := done]> (bq_jobs s)) in
        match job_state done with
        | JobDone (Some d) => (Raise (JobFailed d), Some s')
        | _ => (Ok tt, Some s')
        end
    end.

(** *** Cloud Storage *)

(** [Client.create_bucket(name)] *)
Definition gcs_create_bucket (name : string) : handler GcsState Bucket :=
  fun s =>
    match gcs_buckets s !! name with
    | Some _ => (Raise Conflict, None)
    | None => (Ok {| bucket_name := name |},
               Some {| gcs_buckets := <[name := ∅]> (gcs_buckets s) |})
    end.

(** [Client.get_bucket(name)] *)
Definition gcs_get_bucket (name : string) : handler GcsState Bucket :=
  fun s =>
    match gcs_buckets s !! name with
    | Some _ => (Ok {| bucket_name := name |}, None)
    | None => (Raise NotFound, None)
    end.

(** [Bucket.delete()]: a bucket that still holds blobs is not deleted. *)
Definition gcs_bucket_delete (b : Bucket) : handler GcsState unit :=
  fun s =>
    match gcs_buckets s !! bucket_name b with
    | None => (Raise NotFound, None)
    | Some blobs =>
        if Nat.eqb (size blobs) 0
        then (Ok tt, Some {| gcs_buckets := delete (bucket_name b) (gcs_buckets s) |})
        else (Raise Conflict, None)
    end.

(** [Bucket.copy_blob(blob, destination_bucket, new_name)] *)
Definition gcs_copy_blob (src : Bucket) (blob : Blob) (dst : Bucket) (new_name : string)
    : handler GcsState Blob :=
  fun s =>
    match gcs_buckets s !! blob_bucket blob with
    | None => (Raise NotFound, None)
    | Some src_blobs =>
        match src_blobs !! blob_name blob, gcs_buckets s !! bucket_name dst with
        | Some content, Some dst_blobs =>
            (Ok {| blob_bucket := bucket_name dst; blob_name := new_name |},
             Some {| gcs_buckets :=
                       <[bucket_name dst := <[new_name := content]> dst_blobs]> (gcs_buckets s) |})
        | _, _ => (Raise NotFound, None)
        end
    end.

(** [Blob.delete()] *)
Definition gcs_blob_delete (b : Blob) : handler GcsState unit :=
  fun s =>
    match gcs_buckets s !! blob_bucket b with
    | None => (Raise NotFound, None)
    | Some blobs =>
        match blobs !! blob_name b with
        | None => (Raise NotFound, None)
        | Some _ =>
            (Ok tt,
             Some {| gcs_buckets :=
                       <[blob_bucket b := delete (blob_name b) blobs]> (gcs_buckets s) |})
        end
    end.

(** *** Pub/Sub *)

(** [PublisherClient.topic_path(project, topic)] *)
Definition topic_path (project_id topic_id : string) : string :=
  "projects/" +:+ project_id +:+ "/topics/" +:+ topic_id.

(** [SubscriberClient.subscription_path(project, subscription)] *)
Definition subscription_path (project_id subscription_id : string) : string :=
  "projects/" +:+ project_id +:+ "/subscriptions/" +:+ subscription_id.

(** [PublisherClient.create_topic(request={"name": ...})] *)
Definition pubsub_create_topic (name : string) : handler PubSubState Topic :=
  fun s =>
    if decide (name ∈ topics s) then (Raise AlreadyExists, None)
    else (Ok {| topic_name := name |},
          Some {| topics := {[name]} ∪ topics s; subscriptions := subscriptions s |}).

(** [PublisherClient.delete_topic(request={"topic": ...})] *)
Definition pubsub_delete_topic (topic : string) : handler PubSubState unit :=
  fun s =>
    if decide (topic ∈ topics s)
    then (Ok tt, Some {| topics := topics s ∖ {[topic]}; subscriptions := subscriptions s |})
    else (Raise NotFound, None).

(** [SubscriberClient.create_subscription(request={"name": ..., "topic": ...})] *)
Definition pubsub_create_subscription (name topic : string)
    : handler PubSubState Subscription :=
  fun s =>
    match subscriptions s !! name with
    | Some _ => (Raise AlreadyExists, None)
    | None =>
        if decide (topic ∈ topics s) then
          (Ok {| subscription_name := name; subscription_topic := topic |},
           Some {| topics := topics s;
                   subscriptions :=
                     <[name := {| sub_topic := topic; backlog := [];
                                  outstanding := []; acked := [] |}]> (subscriptions s) |})
        else (Raise NotFound, None)
    end.

(** [SubscriberClient.delete_subscription(request={"subscription": ...})] *)
Definition pubsub_delete_subscription (name : string) : handler PubSubState unit :=
  fun s =>
    match subscriptions s !! name with
    | None => (Raise NotFound, None)
    | Some _ =>
        (Ok tt, Some {| topics := topics s; subscriptions := delete name (subscriptions s) |})
    end.

(** [SubscriberClient.pull(request={"subscription": ..., "max_messages": n})]:
    [n] must be positive; at most [n] messages of the backlog are delivered,
    each with its acknowledgment id, and stay outstanding until
    acknowledged. *)
Definition pubsub_pull (name : string) (max_messages : Z)
    : handler PubSubState (list ReceivedMessage) :=
  fun s =>
    match subscriptions s !! name with
    | None => (Raise NotFound, None)
    | Some sub =>
        if max_messages <=? 0 then (Raise InvalidArgument, None)
        else
          let n := Z.to_nat max_messages in
          let delivered := take n (backlog sub) in
          (Ok delivered,
           Some {| topics := topics s;
                   subscriptions :=
                     <[name := {| sub_topic := sub_topic sub;
                                  backlog := drop n (backlog sub);
                                  outstanding := outstanding sub ++ delivered;
                                  acked := acked sub |}]> (subscriptions s) |})
    end.

Definition is_acked (ids : list string) (m : ReceivedMessage) : bool :=
  existsb (String.eqb (ack_id m)) ids.

(** [SubscriberClient.acknowledge(request={"subscription": ..., "ack_ids": ids})]:
    the list of ids must not be empty; the outstanding messages with one of
    the ids are done with. *)
Definition pubsub_acknowledge (name : string) (ids : list string)
    : handler PubSubState unit :=
  fun s =>
    match subscriptions s !! name with
    | None => (Raise NotFound, None)
    | Some sub =>
        match ids with
        | [] => (Raise InvalidArgument, None)
        | _ =>
            (Ok tt,
             Some {| topics := topics s;
                     subscriptions :=
                       <[name := {| sub_topic := sub_topic sub;
                                    backlog := backlog sub;
                                    outstanding :=
                                      List.filter (fun m => negb (is_acked ids m)) (outstanding sub);
                                    acked := acked sub ++ ids |}]> (subscriptions s) |})
        end
    end.

(** *** Bigtable *)

(** [Instance.create(clusters=...)] *)
Definition bt_instance_create (i : BtInstanceRef) (clusters : list Cluster)
    : handler BigtableState Operation :=
  fun s =>
    match bt_instances s !! bt_instance_id i with
    | Some _ => (Raise AlreadyExists, None)
    | None =>
        (Ok {| operation_target := bt_instance_id i |},
         Some {| bt_instances :=
                   <[bt_instance_id i := {| bt_clusters := clusters; bt_tables := ∅ |}]>
                     (bt_instances s) |})
    end.

(** [Instance.delete()] *)
Definition bt_instance_delete (i : BtInstanceRef) : handler BigtableState unit :=
  fun s =>
    match bt_instances s !! bt_instance_id i with
    | None => (Raise NotFound, None)
    | Some _ => (Ok tt, Some {| bt_instances := delete (bt_instance_id i) (bt_instances s) |})
    end.

(** [Table.create(column_families=...)] *)
Definition bt_table_create (t : BtTableRef) (families : list string)
    : handler BigtableState unit :=
  fun s =>
    match bt_instances s !! bt_table_instance t with
    | None => (Raise NotFound, None)
    | Some inst =>
        match bt_tables inst !! bt_table_id t with
        | Some _ => (Raise AlreadyExists, None)
        | None =>
            (Ok tt,
             Some {| bt_instances :=
                       <[bt_table_instance t :=
                           {| bt_clusters := bt_clusters inst;
                              bt_tables :=
                                <[bt_table_id t := {| column_families := families; rows := ∅ |}]>
                                  (bt_tables inst) |}]> (bt_instances s) |})
        end
    end.

(** [Table.delete()] *)
Definition bt_table_delete (t : BtTableRef) : handler BigtableState unit :=
  fun s =>
    match bt_instances s !! bt_table_instance t with
    | None => (Raise NotFound, None)
    | Some inst =>
        match bt_tables inst !! bt_table_id t with
        | None => (Raise NotFound, None)
        | Some _ =>
            (Ok tt,
             Some {| bt_instances :=
                       <[bt_table_instance t :=
                           {| bt_clusters := bt_clusters inst;
                              bt_tables := delete (bt_table_id t) (bt_tables inst) |}]>
                         (bt_instances s) |})
        end
    end.

(** [Table.read_row(row_key)]: the row's data, or [None] when the table has
    no row of that key. *)
Definition bt_read_row (t : BtTableRef) (key : string)
    : handler BigtableState (option PartialRowData) :=
  fun s =>
    match bt_instances s !! bt_table_instance t with
    | None => (Raise NotFound, None)
    | Some inst =>
        match bt_tables inst !! bt_table_id t with
        | None => (Raise NotFound, None)
        | Some tbl => (Ok (rows tbl !! key), None)
        end
    end.

(** [PartialRowData.to_dict()]: the cells of each column under the key
    "family:qualifier". *)
Definition to_dict (row : PartialRowData) : gmap string (list Cell) :=
  map_fold
    (fun family columns acc =>
       map_fold (fun qualifier cells acc' => <[family +:+ ":" +:+ qualifier := cells]> acc')
                acc columns)
    ∅ (row_cells row).

(** *** Memorystore *)

Definition instance_name (parent instance_id : string) : string :=
  parent +:+ "/instances/" +:+ instance_id.

(** [CloudRedisClient.create_instance(parent, instance_id, instance)] *)
Definition redis_create_instance (parent instance_id tier : string) (memory : Z)
    : handler RedisState Operation :=
  fun s =>
    let name := instance_name parent instance_id in
    match redis_instances s !! name with
    | Some _ => (Raise AlreadyExists, None)
    | None =>
        (Ok {| operation_target := name |},
         Some {| redis_instances :=
                   <[name := {| redis_name := name; tier := tier; memory_size_gb := memory |}]>
                     (redis_instances s) |})
    end.

(** [operation.result()] of a create operation: the instance. *)
Definition redis_operation_result (op : Operation) : handler RedisState RedisInstance :=
  fun s =>
    match redis_instances s !! operation_target op with
    | Some inst => (Ok inst, None)
    | None => (Raise NotFound, None)
    end.

(** [CloudRedisClient.delete_instance(name)] *)
Definition redis_delete_instance (name : string) : handler RedisState Operation :=
  fun s =>
    match redis_instances s !! name with
    | None => (Raise NotFound, None)
    | Some _ =>
        (Ok {| operation_target := name |},
         Some {| redis_instances := delete name (redis_instances s) |})
    end.

(** *** Kubernetes *)

(** [CoreV1Api.delete_namespaced_pod(name, namespace)] *)
Definition k8s_delete_pod (name namespace : string) : handler K8sState unit :=
  fun s =>
    if decide ((namespace, name) ∈ k8s_pods s)
    then (Ok tt, Some {| k8s_pods := k8s_pods s ∖ {[(namespace, name)]} |})
    else (Raise (ApiException 404), None).

(** *** Files (POSIX) *)

Definition is_dot (seg : string) : bool := String.eqb seg "" || String.eqb seg ".".

Definition is_dotdot (seg : string) : bool := String.eqb seg "..".

(** Where a path starts: the root for an absolute one, else the working
    directory. *)
Definition start_dir (s : FsState) (name : string) : list string :=
  if starts_with_slash name then [] else cwd s.

(** Resolution of the directory part of a path: every name on the way must be
    an existing directory. *)
Fixpoint walk (t : gmap (list string) node) (cur : list string) (segs : list string)
    : result (list string) :=
  match segs with
  | [] => Ok cur
  | seg :: rest =>
      if is_dot seg then walk t cur rest
      else if is_dotdot seg then walk t (removelast cur) rest
      else
        match t !! (cur ++ [seg])%list with
        | Some Dir => walk t (cur ++ [seg])%list rest
        | Some (File _) => Raise NotADirectoryError
        | None => Raise FileNotFoundError
        end
  end.

(** [os.makedirs] along a path: a missing directory is made, an existing
    one entered, and a file in the way is an error.  The directories made
    before an error stay. *)
Fixpoint mkdirs_walk (t : gmap (list string) node) (cur : list string)
    (segs : list string) : result unit * gmap (list string) node :=
  match segs with
  | [] => (Ok tt, t)
  | seg :: rest =>
      if is_dot seg then mkdirs_walk t cur rest
      else if is_dotdot seg then mkdirs_walk t (removelast cur) rest
      else
        match t !! (cur ++ [seg])%list with
        | Some Dir => mkdirs_walk t (cur ++ [seg])%list rest
        | Some (File _) =>
            (Raise (match rest with [] => FileExistsError | _ => NotADirectoryError end), t)
        | None => mkdirs_walk (<[(cur ++ [seg])%list := Dir]> t) (cur ++ [seg])%list rest
        end
  end.

(** Whether the last name of a path is [..]. *)
Definition ends_in_dotdot (segs : list string) : bool :=
  match List.filter (fun seg => negb (String.eqb seg "")) segs with
  | [] => false
  | s :: rest => is_dotdot (List.last rest s)
  end.

(** [os.makedirs(name, exist_ok=...)].  The empty name is no path.  Without
    [exist_ok] the last [mkdir] must make the leaf: a path that already names
    a directory, or one that ends in [..], raises FileExistsError. *)
Definition fs_makedirs (name : string) (exist_ok : bool) : handler FsState unit :=
  fun s =>
    match name with
    | EmptyString => (Raise FileNotFoundError, None)
    | _ =>
        let segs := split_on slash name in
        if negb exist_ok && is_ok (walk (nodes s) (start_dir s name) segs)
        then (Raise FileExistsError, None)
        else
          let '(r, t) := mkdirs_walk (nodes s) (start_dir s name) segs in
          (if negb exist_ok && is_ok r && ends_in_dotdot segs
           then Raise FileExistsError else r,
           Some {| cwd := cwd s; nodes := t |})
    end.

(** The file a path names for writing: its directory must exist, and the
    path must not name a directory. *)
Definition write_target (s : FsState) (name : string) : result (list string) :=
  match name with
  | EmptyString => Raise FileNotFoundError
  | _ =>
      let segs := split_on slash name in
      match walk (nodes s) (start_dir s name) (removelast segs) with
      | Raise e => Raise e
      | Ok dir =>
          let leaf := List.last segs "" in
          if is_dot leaf || is_dotdot leaf then Raise IsADirectoryError
          else
            match nodes s !! (dir ++ [leaf])%list with
            | Some Dir => Raise IsADirectoryError
            | _ => Ok (dir ++ [leaf])%list
            end
      end
  end.

(** [open(name, "w")] and [open(name, "wb")]: the file is created if missing
    and emptied if present. *)
Definition fs_open (name : string) (mode : open_mode) : handler FsState FileHandle :=
  fun s =>
    match write_target s name with
    | Raise e => (Raise e, None)
    | Ok target =>
        (Ok {| fh_path := target |},
         Some {| cwd := cwd s; nodes := <[target := File []]> (nodes s) |})
    end.

(** [f.write(content)] on a file opened for writing: the content goes after
    what was written since the file was opened. *)
Definition fs_write (fh : FileHandle) (content : list byte) : handler FsState unit :=
  fun s =>
    match nodes s !! fh_path fh with
    | Some (File old) =>
        (Ok tt, Some {| cwd := cwd s; nodes := <[fh_path fh := File (old ++ content)%list]> (nodes s) |})
    | _ => (Ok tt, None)
    end.

(** *** zipfile *)

Definition zip_is_zipfile (stream : list byte) : handler ZipLib bool :=
  fun lib => (Ok (is_zipfile lib stream), None).

Definition zip_open (stream : list byte) : handler ZipLib ZipFile :=
  fun lib =>
    match zip_directory lib stream with
    | Some names => (Ok {| zip_names := names |}, None)
    | None => (Raise BadZipFile, None)
    end.

Definition with_ziplib (w : World) (s : ZipLib) : World :=
  {| bq := bq w; gcs := gcs w; pubsub := pubsub w; bigtable := bigtable w;
     redis := redis w; k8s := k8s w; fs := fs w; ziplib := s |}.

(** ** Running a helper *)

Definition handle {X} (c : call X) : World -> result X * World :=
  match c in call X return World -> result X * World with
  | ClientCreateDataset d ok => lift bq with_bq (bq_create_dataset d ok)
  | ClientDeleteDataset c d dc nf => lift bq with_bq (bq_delete_dataset c d dc nf)
  | ClientCreateTable t ok => lift bq with_bq (bq_create_table t ok)
  | ClientDeleteTable t nf => lift bq with_bq (bq_delete_table t nf)
  | ClientLoadTableFromUri uri t cfg => lift bq with_bq (bq_load_table_from_uri uri t cfg)
  | LoadJobResult j => lift bq with_bq (bq_job_result j)
  | StorageCreateBucket n => lift gcs with_gcs (gcs_create_bucket n)
  | StorageGetBucket n => lift gcs with_gcs (gcs_get_bucket n)
  | BucketDelete b => lift gcs with_gcs (gcs_bucket_delete b)
  | BucketCopyBlob src blob dst n => lift gcs with_gcs (gcs_copy_blob src blob dst n)
  | BlobDelete b => lift gcs with_gcs (gcs_blob_delete b)
  | PublisherCreateTopic n => lift pubsub with_pubsub (pubsub_create_topic n)
  | PublisherDeleteTopic t => lift pubsub with_pubsub (pubsub_delete_topic t)
  | SubscriberCreateSubscription n t => lift pubsub with_pubsub (pubsub_create_subscription n t)
  | SubscriberDeleteSubscription n => lift pubsub with_pubsub (pubsub_delete_subscription n)
  | SubscriberPull n m => lift pubsub with_pubsub (pubsub_pull n m)
  | SubscriberAcknowledge n ids => lift pubsub with_pubsub (pubsub_acknowledge n ids)
  | InstanceCreate i cs => lift bigtable with_bigtable (bt_instance_create i cs)
  | InstanceDelete i => lift bigtable with_bigtable (bt_instance_delete i)
  | TableCreate t fams => lift bigtable with_bigtable (bt_table_create t fams)
  | TableDelete t => lift bigtable with_bigtable (bt_table_delete t)
  | TableReadRow t k => lift bigtable with_bigtable (bt_read_row t k)
  | RedisCreateInstance p i t m => lift redis with_redis (redis_create_instance p i t m)
  | OperationResult op => lift redis with_redis (redis_operation_result op)
  | RedisDeleteInstance n => lift redis with_redis (redis_delete_instance n)
  | DeleteNamespacedPod n ns => lift k8s with_k8s (k8s_delete_pod n ns)
  | IsZipfile b => lift ziplib with_ziplib (zip_is_zipfile b)
  | ZipFileOpen b => lift ziplib with_ziplib (zip_open b)
  | OsMakedirs n ok => lift fs with_fs (fs_makedirs n ok)
  | OpenFile n m => lift fs with_fs (fs_open n m)
  | FileWrite fh content => lift fs with_fs (fs_write fh content)
  end.

(** The result of a helper, the world it leaves and the calls it made, in
    order.  A call that raises is the last one. *)
Definition add_event {A} (e : event) (r : result A * World * list event)
    : result A * World * list event :=
  let '(x, w, tr) := r in (x, w, e :: tr).

Fixpoint run {A} (p : prog A) (w : World) : result A * World * list event :=
  match p with
  | Ret a => (Ok a, w, [])
  | Throw e => (Raise e, w, [])
  | Vis c k =>
      match handle c w with
      | (Ok x, w') => add_event (ev c) (run (k x) w')
      | (Raise e, w') => (Raise e, w', [ev c])
      end
  end.

Definition outcome {A} (p : prog A) (w : World) : result A := fst (fst (run p w)).

Definition final {A} (p : prog A) (w : World) : World := snd (fst (run p w)).

Definition trace {A} (p : prog A) (w : World) : list event := snd (run p w).

(** The world left when the process is stopped after at most [n] calls of
    the helper have completed. *)
Fixpoint interrupted {A} (n : nat) (p : prog A) (w : World) : World :=
  match n, p with
  | S n', Vis c k =>
      match handle c w with
      | (Ok x, w') => interrupted n' (k x) w'
      | (Raise _, w') => w'
      end
  | _, _ => w
  end.

(** ** The helper classes

    Each method is written call for call after its source.  A method that
    returns nothing returns [tt]. *)

(** *** bigquery.py *)
Module BigQueryClientHelper.

Record t := {
  project_id : string;
  client : BqClient
}.

(** [bigquery.Dataset(ref)] *)
Definition new_dataset (ref : string) : Dataset :=
  {| dataset_ref := ref; dataset_etag := None |}.

(** [bigquery.Table(table_id, schema=schema)] *)
Definition new_table (table_id : string) (schema : list SchemaField) : Table :=
  {| table_ref := table_id; table_schema := schema; time_partitioning := None;
     clustering_fields := None; view_query := None; table_etag := None |}.

Definition set_time_partitioning (tb : Table) (field : string) : Table :=
  {| table_ref := table_ref tb; table_schema := table_schema tb;
     time_partitioning := Some field;
     clustering_fields := clustering_fields tb; view_query := view_query tb;
     table_etag := table_etag tb |}.

Definition set_clustering_fields (tb : Table) (fields : list string) : Table :=
  {| table_ref := table_ref tb; table_schema := table_schema tb;
     time_partitioning := time_partitioning tb;
     clustering_fields := Some fields; view_query := view_query tb;
     table_etag := table_etag tb |}.

Definition set_view_query (tb : Table) (query : string) : Table :=
  {| table_ref := table_ref tb; table_schema := table_schema tb;
     time_partitioning := time_partitioning tb;
     clustering_fields := clustering_fields tb; view_query := Some query;
     table_etag := table_etag tb |}.

Definition create_dataset (self : t) (dataset_id : string) : prog Dataset :=
  let dataset := new_dataset (project (client self) +:+ "." +:+ dataset_id) in
  perform (ClientCreateDataset dataset true).

Definition delete_dataset (self : t) (dataset_id : string) (delete_contents : bool)
    : prog unit :=
  perform (ClientDeleteDataset (client self) dataset_id delete_contents true).

Definition create_table (self : t) (dataset_name table_name : string)
    (schema : list SchemaField) (partition_field : option string)
    (cluster_fields : option (list string)) : prog Table :=
  let table_id := project_id self +:+ "." +:+ dataset_name +:+ "." +:+ table_name in
  let table := new_table table_id schema in
  let table :=
    if truthy_str partition_field
    then set_time_partitioning table (default "" partition_field)
    else table in
  let table :=
    if truthy_list cluster_fields
    then set_clustering_fields table (default [] cluster_fields)
    else table in
  perform (ClientCreateTable table true).

Definition delete_table (self : t) (dataset_name table_name : string) : prog unit :=
  perform (ClientDeleteTable
             (project_id self +:+ "." +:+ dataset_name +:+ "." +:+ table_name) true).

Definition create_view (self : t) (dataset_name view_name query : string) : prog unit :=
  let view_id := project_id self +:+ "." +:+ dataset_name +:+ "." +:+ view_name in
  let view := new_table view_id [] in
  let view := set_view_query view query in
  _ <- perform (ClientCreateTable view true) ;;
  Ret tt.

Definition delete_view (self : t) (dataset_name view_name : string) : prog unit :=
  let view_id := project_id self +:+ "." +:+ dataset_name +:+ "." +:+ view_name in
  perform (ClientDeleteTable view_id true).

End BigQueryClientHelper.

(** *** storage.py *)
Module GCSClientHelper.

Record t := {
  storage_client : string;     (* the project of the storage client *)
  bigquery_client : BqClient
}.

(** [bucket.blob(name)]: a handle, no call to the backend. *)
Definition bucket_blob (b : Bucket) (name : string) : Blob :=
  {| blob_bucket := bucket_name b; blob_name := name |}.

Definition create_bucket (self : t) (bucket_name : string) : prog Bucket :=
  bucket <- perform (StorageCreateBucket bucket_name) ;;
  Ret bucket.

Definition delete_bucket (self : t) (bucket_name : string) : prog unit :=
  bucket <- perform (StorageGetBucket bucket_name) ;;
  perform (BucketDelete bucket).

Definition blob_to_bigquery_table (self : t) (bucket_name blob_name table_id : string)
    : prog unit :=
  let uri := "gs://" +:+ bucket_name +:+ "/" +:+ blob_name in
  let job_config := {| source_format := "CSV" |} in
  load_job <- perform (ClientLoadTableFromUri uri table_id job_config) ;;
  perform (LoadJobResult load_job).

Definition move_blob (self : t) (bucket_name blob_name destination_bucket_name
    destination_blob_name : string) : prog unit :=
  source_bucket <- perform (StorageGetBucket bucket_name) ;;
  let source_blob := bucket_blob source_bucket blob_name in
  destination_bucket <- perform (StorageGetBucket destination_bucket_name) ;;
  _ <- perform (BucketCopyBlob source_bucket source_blob destination_bucket
                  destination_blob_name) ;;
  perform (BlobDelete source_blob).

End GCSClientHelper.

(** *** pubsub.py *)
Module PubSubClientHelper.

Record t := { project_id : string }.

Definition create_topic (self : t) (topic_id : string) : prog Topic :=
  let topic_path := topic_path (project_id self) topic_id in
  topic <- perform (PublisherCreateTopic topic_path) ;;
  Ret topic.

Definition delete_topic (self : t) (topic_id : string) : prog unit :=
  let topic_path := topic_path (project_id self) topic_id in
  perform (PublisherDeleteTopic topic_path).

Definition create_subscription (self : t) (topic_id subscription_id : string)
    : prog Subscription :=
  let topic_path := topic_path (project_id self) topic_id in
  let subscription_path := subscription_path (project_id self) subscription_id in
  subscription <- perform (SubscriberCreateSubscription subscription_path topic_path) ;;
  Ret subscription.

Definition delete_subscription (self : t) (subscription_id : string) : prog unit :=
  let subscription_path := subscription_path (project_id self) subscription_id in
  perform (SubscriberDeleteSubscription subscription_path).

Definition pull_messages (self : t) (subscription_id : string) (max_messages : Z)
    : prog (list string) :=
  let subscription_path := subscription_path (project_id self) subscription_id in
  response <- perform (SubscriberPull subscription_path max_messages) ;;
  messages <- of_result (map_result (fun msg => decode_utf8 (data msg)) response) ;;
  let ack_ids := map ack_id response in
  _ <- perform (SubscriberAcknowledge subscription_path ack_ids) ;;
  Ret messages.

End PubSubClientHelper.

(** *** bigtable.py *)
Module BigtableClientHelper.

Record t := { client : string }.   (* the project of the Bigtable client *)

(** [client.instance(id)] and [instance.table(id)]: handles, no call to the
    backend. *)
Definition client_instance (self : t) (instance_id : string) : BtInstanceRef :=
  {| bt_instance_id := instance_id |}.

Definition instance_table (i : BtInstanceRef) (table_id : string) : BtTableRef :=
  {| bt_table_instance := bt_instance_id i; bt_table_id := table_id |}.

Definition create_instance (self : t) (instance_id cluster_id location_id : string)
    (serve_nodes : Z) : prog BtInstanceRef :=
  let instance := client_instance self instance_id in
  let cluster := {| cluster_id := cluster_id; location_id := location_id;
                    serve_nodes := serve_nodes |} in
  _ <- perform (InstanceCreate instance [cluster]) ;;
  Ret instance.

Definition delete_instance (self : t) (instance_id : string) : prog unit :=
  let instance := client_instance self instance_id in
  perform (InstanceDelete instance).

Definition create_table (self : t) (instance_id table_id column_family_id : string)
    : prog BtTableRef :=
  let instance := client_instance self instance_id in
  let table := instance_table instance table_id in
  _ <- perform (TableCreate table [column_family_id]) ;;
  Ret table.

Definition delete_table (self : t) (instance_id table_id : string) : prog unit :=
  let instance := client_instance self instance_id in
  let table := instance_table instance table_id in
  perform (TableDelete table).

Definition read_row (self : t) (instance_id table_id row_key : string)
    : prog (gmap string (list Cell)) :=
  let instance := client_instance self instance_id in
  let table := instance_table instance table_id in
  row <- perform (TableReadRow table row_key) ;;
  Ret (match row with
       | Some r => to_dict r
       | None => ∅
       end).

End BigtableClientHelper.

(** *** redis.py *)
Module MemorystoreClientHelper.

Record t := { parent : string }.

Definition init (project_id location : string) : t :=
  {| parent := "projects/" +:+ project_id +:+ "/locations/" +:+ location |}.

Definition create_instance (self : t) (instance_id tier : string) (memory_size_gb : Z)
    : prog RedisInstance :=
  operation <- perform (RedisCreateInstance (parent self) instance_id tier memory_size_gb) ;;
  instance <- perform (OperationResult operation) ;;
  Ret instance.

Definition delete_instance (self : t) (instance_id : string) : prog unit :=
  let name := parent self +:+ "/instances/" +:+ instance_id in
  _ <- perform (RedisDeleteInstance name) ;;
  Ret tt.

End MemorystoreClientHelper.

(** *** kubernetes.py *)
Module KubernetesClientHelper.

Record t := { kubeconfig_path : option string }.

Definition delete_pod (self : t) (namespace pod_name : string) : prog unit :=
  perform (DeleteNamespacedPod pod_name namespace).

End KubernetesClientHelper.

(** *** utils.py *)
Module ZipExtractor.

Record t := {
  zip_object : list byte;
  folder_file_path : string
}.

Definition _check_is_zipfile (self : t) : prog bool :=
  accepted <- perform (IsZipfile (zip_object self)) ;;
  if accepted then Ret true else Ret false.

(** The constructor: [assert self._check_is_zipfile() == True]. *)
Definition __init__ (zip_object : list byte) (folder_file_path : string) : prog t :=
  let self := {| zip_object := zip_object; folder_file_path := folder_file_path |} in
  checked <- _check_is_zipfile self ;;
  if Bool.eqb checked true then Ret self else Throw AssertionError.


Definition write_string_to_file (self : t) (file : string) (string : string) : prog unit :=
  md_file <- perform (OpenFile file ModeW) ;;
  perform (FileWrite md_file (encode_utf8 string)).

Definition write_bytes_to_binary_file (self : t) (file_bytes : list byte)
    (file_name : string) : prog unit :=
  _ <- perform (OsMakedirs (dirname file_name) true) ;;
  binary_file <- perform (OpenFile file_name ModeWB) ;;
  perform (FileWrite binary_file file_bytes).


End ZipExtractor.

(** ** Lifecycle operations, by kind *)

(** What a create helper hands back. *)
Inductive handle_value : Type :=
| HNone
| HDataset (d : Dataset)
| HTable (tb : Table)
| HBucket (b : Bucket)
| HTopic (tp : Topic)
| HSubscription (sb : Subscription)
| HBtInstance (i : BtInstanceRef)
| HBtTable (tb : BtTableRef)
| HRedisInstance (i : RedisInstance).

Inductive create_op : Type :=
| CreateDataset (self : BigQueryClientHelper.t) (dataset_id : string)
| CreateTable (self : BigQueryClientHelper.t) (dataset_name table_name : string)
    (schema : list SchemaField) (partition_field : option string)
    (cluster_fields : option (list string))
| CreateView (self : BigQueryClientHelper.t) (dataset_name view_name query : string)
| CreateBucket (self : GCSClientHelper.t) (bucket_name : string)
| CreateTopic (self : PubSubClientHelper.t) (topic_id : string)
| CreateSubscription (self : PubSubClientHelper.t) (topic_id subscription_id : string)
| CreateBtInstance (self : BigtableClientHelper.t)
    (instance_id cluster_id location_id : string) (serve_nodes : Z)
| CreateBtTable (self : BigtableClientHelper.t) (instance_id table_id column_family_id : string)
| CreateRedisInstance (self : MemorystoreClientHelper.t) (instance_id tier : string)
    (memory_size_gb : Z).

Definition create (op : create_op) : prog handle_value :=
  match op with
  | CreateDataset self d =>
      x <- BigQueryClientHelper.create_dataset self d ;; Ret (HDataset x)
  | CreateTable self ds tn schema pf cf =>
      x <- BigQueryClientHelper.create_table self ds tn schema pf cf ;; Ret (HTable x)
  | CreateView self ds vn q =>
      _ <- BigQueryClientHelper.create_view self ds vn q ;; Ret HNone
  | CreateBucket self n =>
      x <- GCSClientHelper.create_bucket self n ;; Ret (HBucket x)
  | CreateTopic self tid =>
      x <- PubSubClientHelper.create_topic self tid ;; Ret (HTopic x)
  | CreateSubscription self tid sid =>
      x <- PubSubClientHelper.create_subscription self tid sid ;; Ret (HSubscription x)
  | CreateBtInstance self i c l n =>
      x <- BigtableClientHelper.create_instance self i c l n ;; Ret (HBtInstance x)
  | CreateBtTable self i tid fam =>
      x <- BigtableClientHelper.create_table self i tid fam ;; Ret (HBtTable x)
  | CreateRedisInstance self i tier m =>
      x <- MemorystoreClientHelper.create_instance self i tier m ;; Ret (HRedisInstance x)
  end.


Inductive delete_op : Type :=
| DeleteDataset (self : BigQueryClientHelper.t) (dataset_id : string) (delete_contents : bool)
| DeleteTable (self : BigQueryClientHelper.t) (dataset_name table_name : string)
| DeleteView (self : BigQueryClientHelper.t) (dataset_name view_name : string)
| DeleteBucket (self : GCSClientHelper.t) (bucket_name : string)
| DeleteTopic (self : PubSubClientHelper.t) (topic_id : string)
| DeleteSubscription (self : PubSubClientHelper.t) (subscription_id : string)
| DeleteBtInstance (self : BigtableClientHelper.t) (instance_id : string)
| DeleteBtTable (self : BigtableClientHelper.t) (instance_id table_id : string)
| DeleteRedisInstance (self : MemorystoreClientHelper.t) (instance_id : string)
| DeletePod (self : KubernetesClientHelper.t) (namespace pod_name : string).

Definition delete_prog (op : delete_op) : prog unit :=
  match op with
  | DeleteDataset self d dc => BigQueryClientHelper.delete_dataset self d dc
  | DeleteTable self ds tn => BigQueryClientHelper.delete_table self ds tn
  | DeleteView self ds vn => BigQueryClientHelper.delete_view self ds vn
  | DeleteBucket self n => GCSClientHelper.delete_bucket self n
  | DeleteTopic self tid => PubSubClientHelper.delete_topic self tid
  | DeleteSubscription self sid => PubSubClientHelper.delete_subscription self sid
  | DeleteBtInstance self i => BigtableClientHelper.delete_instance self i
  | DeleteBtTable self i tid => BigtableClientHelper.delete_table self i tid
  | DeleteRedisInstance self i => MemorystoreClientHelper.delete_instance self i
  | DeletePod self ns n => KubernetesClientHelper.delete_pod self ns n
  end.

(** Whether the backend holds the resource a delete helper targets. *)
Definition present (op : delete_op) (w : World) : bool :=
  match op with
  | DeleteDataset self d _ =>
      bool_decide (is_Some (bq_datasets (bq w)
                              !! resolve_dataset (BigQueryClientHelper.client self) d))
  | DeleteTable self ds tn =>
      bool_decide (is_Some (bq_tables (bq w)
        !! (BigQueryClientHelper.project_id self +:+ "." +:+ ds +:+ "." +:+ tn)))
  | DeleteView self ds vn =>
      bool_decide (is_Some (bq_tables (bq w)
        !! (BigQueryClientHelper.project_id self +:+ "." +:+ ds +:+ "." +:+ vn)))
  | DeleteBucket _ n => bool_decide (is_Some (gcs_buckets (gcs w) !! n))
  | DeleteTopic self tid =>
      bool_decide (topic_path (PubSubClientHelper.project_id self) tid ∈ topics (pubsub w))
  | DeleteSubscription self sid =>
      bool_decide (is_Some (subscriptions (pubsub w)
        !! subscription_path (PubSubClientHelper.project_id self) sid))
  | DeleteBtInstance _ i => bool_decide (is_Some (bt_instances (bigtable w) !! i))
  | DeleteBtTable _ i tid =>
      bool_decide (is_Some (inst ← bt_instances (bigtable w) !! i; bt_tables inst !! tid))
  | DeleteRedisInstance self i =>
      bool_decide (is_Some (redis_instances (redis w)
        !! instance_name (MemorystoreClientHelper.parent self) i))
  | DeletePod _ ns n => bool_decide ((ns, n) ∈ k8s_pods (k8s w))
  end.


Definition delete_is_not_found_ok (op : delete_op) (w : World) : Prop :=
  present op w = false ->
    outcome (delete_prog op) w = Ok tt /\ final (delete_prog op) w = w.

(** ** Sample worlds *)

Definition empty_bq : BqState :=
  {| bq_datasets := ∅; bq_tables := ∅; bq_jobs := [];
     bq_load_outcome := fun _ _ => None; bq_next_etag := 0 |}.

(** A stand-in for [zipfile]: it accepts the streams that start with the
    letters PK and reads no names from them. *)
Definition sample_ziplib : ZipLib :=
  {| is_zipfile := fun stream =>
       match stream with
       | b1 :: b2 :: _ => Byte.eqb b1 "P"%byte && Byte.eqb b2 "K"%byte
       | _ => false
       end;
     zip_directory := fun stream =>
       match stream with
       | b1 :: b2 :: _ =>
           if Byte.eqb b1 "P"%byte && Byte.eqb b2 "K"%byte then Some [] else None
       | _ => None
       end |}.

(** No resource in any backend; the file tree holds [/home/user], the
    working directory, and [/srv/stage]. *)
Definition empty_world : World :=
  {| bq := empty_bq;
     gcs := {| gcs_buckets := ∅ |};
     pubsub := {| topics := ∅; subscriptions := ∅ |};
     bigtable := {| bt_instances := ∅ |};
     redis := {| redis_instances := ∅ |};
     k8s := {| k8s_pods := ∅ |};
     fs := {| cwd := ["home"; "user"];
              nodes := <[["home"] := Dir]> (<[["home"; "user"] := Dir]>
                       (<[["srv"] := Dir]> (<[["srv"; "stage"] := Dir]> ∅))) |};
     ziplib := sample_ziplib |}.

Definition bq_helper : BigQueryClientHelper.t :=
  {| BigQueryClientHelper.project_id := "acme"; BigQueryClientHelper.client := {| project := "acme" |} |}.

Definition gcs_helper : GCSClientHelper.t :=
  {| GCSClientHelper.storage_client := "acme";
     GCSClientHelper.bigquery_client := {| project := "acme" |} |}.

Definition pubsub_helper : PubSubClientHelper.t :=
  {| PubSubClientHelper.project_id := "acme" |}.

Definition bigtable_helper : BigtableClientHelper.t :=
  {| BigtableClientHelper.client := "acme" |}.

(** One bucket, [landing], holding the blob [in.csv]; one bucket, [archive],
    holding nothing. *)
Definition world_with_buckets : World :=
  with_gcs empty_world
    {| gcs_buckets :=
         <["landing" := <["in.csv" := list_byte_of_string "1,x"]> ∅]> (<["archive" := ∅]> ∅) |}.

(** The dataset [acme.sales], stored with entity tag 7. *)
Definition world_with_dataset : World :=
  with_bq empty_world
    {| bq_datasets := <["acme.sales" := {| dataset_ref := "acme.sales"; dataset_etag := Some 7%nat |}]> ∅;
       bq_tables := ∅; bq_jobs := [];
       bq_load_outcome := fun _ _ => None; bq_next_etag := 8 |}.

(** ** Vocabulary of the claims *)

(** *** Archive staging (utils.py) *)

(** The directory a path names: every name on the way must exist. *)
Definition resolve_dir (s : FsState) (name : string) : result (list string) :=
  walk (nodes s) (start_dir s name) (split_on slash name).

Fixpoint is_prefix (root p : list string) : bool :=
  match root, p with
  | [], _ => true
  | r :: root', x :: p' => String.eqb r x && is_prefix root' p'
  | _ :: _, [] => false
  end.

Definition has_upward_segment (name : string) : bool :=
  existsb is_dotdot (split_on slash name).

(** Every node that differs between two file trees lies under [root]. *)
Definition writes_confined (root : list string) (before after : FsState) : Prop :=
  forall p, nodes after !! p <> nodes before !! p -> is_prefix root p = true.

(** The path-traversal claim as the specification words it: an entry name
    with an upward segment makes the write fail, and nothing outside the
    staging root changes. *)
Definition rejects_traversal (self : ZipExtractor.t) (file_bytes : list byte)
    (file_name : string) (w : World) : Prop :=
  has_upward_segment file_name = true ->
  is_ok (outcome (ZipExtractor.write_bytes_to_binary_file self file_bytes file_name) w) = false /\
  forall root, resolve_dir (fs w) (ZipExtractor.folder_file_path self) = Ok root ->
    writes_confined root (fs w)
      (fs (final (ZipExtractor.write_bytes_to_binary_file self file_bytes file_name) w)).





Definition staged_extractor : ZipExtractor.t :=
  {| ZipExtractor.zip_object := list_byte_of_string "PK-archive";
     ZipExtractor.folder_file_path := "/srv/stage" |}.

Definition payload : list byte := list_byte_of_string "payload".

(** *** Moving a blob (storage.py) *)

Definition blob_content (w : World) (bucket name : string) : option (list byte) :=
  blobs ← gcs_buckets (gcs w) !! bucket; blobs !! name.

(** Whether the first [n] calls of a helper all returned. *)
Fixpoint completed {A} (n : nat) (p : prog A) (w : World) : bool :=
  match n, p with
  | O, _ => true
  | S n', Vis c k =>
      match handle c w with
      | (Ok x, w') => completed n' (k x) w'
      | (Raise _, _) => false
      end
  | S _, _ => false
  end.

(** *** Pulling messages (pubsub.py) *)

(** The subscription [orders-sub] of project [acme] with three messages
    waiting. *)
Definition world_with_subscription : World :=
  with_pubsub empty_world
    {| topics := {["projects/acme/topics/orders"]};
       subscriptions :=
         <["projects/acme/subscriptions/orders-sub" :=
             {| sub_topic := "projects/acme/topics/orders";
                backlog := [ {| ack_id := "a1"; data := list_byte_of_string "hello" |};
                             {| ack_id := "a2"; data := list_byte_of_string "world" |};
                             {| ack_id := "a3"; data := list_byte_of_string "again" |} ];
                outstanding := [];
                acked := [] |}]> ∅ |}.

(** *** Loading a blob into a table (storage.py) *)

(** A load of a blob that does not exist ends with the backend's
    diagnostics, which the helper raises. *)
Definition world_with_failing_load : World :=
  with_bq world_with_dataset
    {| bq_datasets := bq_datasets (bq world_with_dataset);
       bq_tables := bq_tables (bq world_with_dataset);
       bq_jobs := [];
       bq_load_outcome := fun uri _ =>
         if String.eqb uri "gs://landing/missing.csv"
         then Some "Not found: URI gs://landing/missing.csv" else None;
       bq_next_etag := bq_next_etag (bq world_with_dataset) |}.

(** *** Resource paths *)

(** The resource path a call names, for the calls that take one.  The
    Bigtable and Kubernetes calls take ids as they are given, not a path. *)
Definition call_path {X} (c : call X) : option string :=
  match c with
  | ClientCreateDataset d _ => Some (dataset_ref d)
  | ClientDeleteDataset c d _ _ => Some (resolve_dataset c d)
  | ClientCreateTable tb _ => Some (table_ref tb)
  | ClientDeleteTable tb _ => Some tb
  | ClientLoadTableFromUri _ tb _ => Some tb
  | StorageCreateBucket n => Some n
  | StorageGetBucket n => Some n
  | PublisherCreateTopic n => Some n
  | PublisherDeleteTopic n => Some n
  | SubscriberCreateSubscription n _ => Some n
  | SubscriberDeleteSubscription n => Some n
  | SubscriberPull n _ => Some n
  | SubscriberAcknowledge n _ => Some n
  | RedisCreateInstance p i _ _ => Some (instance_name p i)
  | RedisDeleteInstance n => Some n
  | _ => None
  end.

(** The path a helper resolves: the one its first call names. *)
Definition first_call {A} (p : prog A) (w : World) : option event :=
  match trace p w with
  | e :: _ => Some e
  | [] => None
  end.

Definition resolved_path {A} (p : prog A) (w : World) : option string :=
  match first_call p w with
  | Some e => call_path (projT2 e)
  | None => None
  end.

(** *** Reading a row (bigtable.py) *)

Definition sample_row : PartialRowData :=
  {| row_key := "row1";
     row_cells :=
       <["cf" := <["col" := [ {| cell_value := list_byte_of_string "v";
                                 cell_timestamp := 1700000000 |} ]]> ∅]> ∅ |}.

(** The instance [inst] with the table [events], which holds one row,
    [row1]. *)
Definition world_with_row : World :=
  with_bigtable empty_world
    {| bt_instances :=
         <["inst" := {| bt_clusters := [];
                        bt_tables :=
                          <["events" := {| column_families := ["cf"];
                                           rows := <["row1" := sample_row]> ∅ |}]> ∅ |}]> ∅ |}.

(** ** Further vocabulary and sample worlds *)


Definition orders_schema : list SchemaField :=
  [ {| field_name := "id"; field_type := "INT64" |} ].

(** The dataset [acme.sales] with the table [acme.sales.orders]. *)
Definition world_with_table : World :=
  with_bq empty_world
    {| bq_datasets := <["acme.sales" := {| dataset_ref := "acme.sales"; dataset_etag := Some 7%nat |}]> ∅;
       bq_tables :=
         <["acme.sales.orders" :=
             {| table_ref := "acme.sales.orders"; table_schema := orders_schema;
                time_partitioning := None; clustering_fields := None;
                view_query := None; table_etag := Some 8%nat |}]> ∅;
       bq_jobs := [];
       bq_load_outcome := fun _ _ => None; bq_next_etag := 9 |}.



Definition k8s_helper : KubernetesClientHelper.t :=
  {| KubernetesClientHelper.kubeconfig_path := None |}.

(** Two pods whose names and namespaces mirror each other. *)
Definition world_with_pods : World :=
  with_k8s empty_world {| k8s_pods := {[("prod", "web"); ("web", "prod")]} |}.

(** * Lemmas and theorems *)

(** ** The lifecycle contract *)

Lemma create_table_call self ds tn schema pf cf :
  exists tb,
    table_ref tb = BigQueryClientHelper.project_id self +:+ "." +:+ ds +:+ "." +:+ tn /\
    BigQueryClientHelper.create_table self ds tn schema pf cf
      = perform (ClientCreateTable tb true).
Proof.
  unfold BigQueryClientHelper.create_table.
  destruct (truthy_str pf), (truthy_list cf); eexists; (split; [|reflexivity]); reflexivity.
Qed.




(** The BigQuery create helpers are idempotent: once create_dataset or
    create_table has returned a resource, the same call returns the same
    resource again and changes nothing more. *)
Lemma bigquery_create_twice (op : create_op) (w : World) (h : handle_value) :
  match op with
  | CreateDataset _ _ | CreateTable _ _ _ _ _ _ => True
  | _ => False
  end ->
  outcome (create op) w = Ok h ->
  outcome (create op) (final (create op) w) = Ok h /\
  final (create op) (final (create op) w) = final (create op) w.
Proof.
  unfold outcome, final.
  destruct op as [self d | self ds tn schema pf cf | self ds vn q | self n | self tid
                 | self tid sid | self i c l sn | self i tid fam | self i tr m];
    intros Hbq; try contradiction; cbn [create].
  - unfold BigQueryClientHelper.create_dataset. cbn.
    unfold lift, bq_create_dataset. cbn.
    destruct (bq_datasets (bq w) !! _) as [d0|] eqn:Hd; cbn.
    + rewrite Hd. cbn. auto.
    + rewrite lookup_insert_eq. cbn. auto.
  - destruct (create_table_call self ds tn schema pf cf) as (tb & Href & ->).
    cbn. unfold lift, bq_create_table.
    destruct (bq_tables (bq w) !! table_ref tb) as [t0|] eqn:Ht; cbn.
    + rewrite Ht. cbn. auto.
    + destruct (Nat.eqb _ 0); cbn; [discriminate|].
      rewrite lookup_insert_eq. cbn. auto.
Qed.

Lemma not_present_lookup {K A} `{Countable K} (m : gmap K A) (k : K) :
  bool_decide (is_Some (m !! k)) = false -> m !! k = None.
Proof.
  intros Hb. apply bool_decide_eq_false in Hb. now apply eq_None_not_Some.
Qed.

(** C2, as amended.  When the target of a delete helper is absent, the helper
    changes nothing.  The BigQuery helpers pass [not_found_ok=True] and
    succeed silently.  The other delete helpers add no handling of their own,
    so the client's not-found error reaches the caller: NotFound for
    delete_bucket (raised by the lookup of the bucket), delete_topic,
    delete_subscription and the Bigtable and Memorystore delete helpers, and
    ApiException with status 404 for delete_pod. *)
Theorem delete_on_absent_target (op : delete_op) (w : World) :
  present op w = false ->
  final (delete_prog op) w = w /\
  outcome (delete_prog op) w =
    match op with
    | DeleteDataset _ _ _ | DeleteTable _ _ _ | DeleteView _ _ _ => Ok tt
    | DeletePod _ _ _ => Raise (ApiException 404)
    | _ => Raise NotFound
    end.
Proof.
  unfold outcome, final.
  destruct op as [self d dc | self ds tn | self ds vn | self n | self tid | self sid
                 | self i | self i tid | self i | self ns n];
    cbn [present delete_prog]; intros Habs.
  - apply not_present_lookup in Habs.
    cbn. unfold lift, bq_delete_dataset. cbn. rewrite Habs. auto.
  - apply not_present_lookup in Habs.
    cbn. unfold lift, bq_delete_table. rewrite Habs. auto.
  - apply not_present_lookup in Habs.
    cbn. unfold lift, bq_delete_table. rewrite Habs. auto.
  - apply not_present_lookup in Habs.
    cbn. unfold lift, gcs_get_bucket. rewrite Habs. auto.
  - apply bool_decide_eq_false in Habs.
    cbn. unfold lift, pubsub_delete_topic.
    destruct (decide _); [contradiction|]. auto.
  - apply not_present_lookup in Habs.
    cbn. unfold lift, pubsub_delete_subscription. rewrite Habs. auto.
  - apply not_present_lookup in Habs.
    cbn. unfold lift, bt_instance_delete. cbn. rewrite Habs. auto.
  - apply bool_decide_eq_false in Habs.
    cbn. unfold lift, bt_table_delete. cbn.
    destruct (bt_instances (bigtable w) !! i) as [i0|] eqn:Hi; [|auto].
    cbn in Habs.
    destruct (bt_tables i0 !! tid) as [t0|] eqn:Ht; [|auto].
    exfalso. apply Habs. eauto.
  - apply not_present_lookup in Habs.
    cbn. unfold lift, redis_delete_instance.
    unfold instance_name in Habs. rewrite Habs. auto.
  - apply bool_decide_eq_false in Habs.
    cbn. unfold lift, k8s_delete_pod.
    destruct (decide _); [contradiction|]. auto.
Qed.

Lemma delete_on_absent_target_witness :
  final (delete_prog (DeleteTable bq_helper "sales" "orders")) world_with_dataset
    = world_with_dataset /\
  outcome (delete_prog (DeleteTable bq_helper "sales" "orders")) world_with_dataset = Ok tt.
Proof.
  exact (delete_on_absent_target (DeleteTable bq_helper "sales" "orders") world_with_dataset
           eq_refl).
Defined.

(** C2, as stated, fails for delete_bucket: no bucket [gone] exists, and
    deleting it raises NotFound. *)
Lemma delete_bucket_on_absent_bucket_raises :
  present (DeleteBucket gcs_helper "gone") world_with_buckets = false /\
  outcome (GCSClientHelper.delete_bucket gcs_helper "gone") world_with_buckets
    = Raise NotFound /\
  ~ delete_is_not_found_ok (DeleteBucket gcs_helper "gone") world_with_buckets.
Proof.
  split; [reflexivity|]. split; [reflexivity|].
  intros H. destruct (H eq_refl) as [Hout _]. discriminate Hout.
Qed.

(** After a BigQuery delete helper has succeeded its target is absent, so the
    same delete can be repeated. *)
Lemma bigquery_delete_leaves_absent (op : delete_op) (w : World) :
  match op with
  | DeleteDataset _ _ _ | DeleteTable _ _ _ | DeleteView _ _ _ => True
  | _ => False
  end ->
  outcome (delete_prog op) w = Ok tt ->
  present op (final (delete_prog op) w) = false.
Proof.
  unfold outcome, final.
  destruct op as [self d dc | self ds tn | self ds vn | self n | self tid | self sid
                 | self i | self i tid | self i | self ns n];
    intros Hbq; try contradiction; cbn [present delete_prog].
  - cbn. unfold lift, bq_delete_dataset. cbn.
    destruct (bq_datasets (bq w) !! _) as [d0|] eqn:Hd.
    + destruct (dc || _); cbn; [|discriminate].
      intros _. apply bool_decide_eq_false. rewrite lookup_delete_eq.
      intros [? ?]; discriminate.
    + cbn. intros _. apply bool_decide_eq_false. rewrite Hd.
      intros [? ?]; discriminate.
  - cbn. unfold lift, bq_delete_table.
    destruct (bq_tables (bq w) !! _) as [t0|] eqn:Ht; cbn; intros _;
      apply bool_decide_eq_false.
    + rewrite lookup_delete_eq. intros [? ?]; discriminate.
    + rewrite Ht. intros [? ?]; discriminate.
  - cbn. unfold lift, bq_delete_table.
    destruct (bq_tables (bq w) !! _) as [t0|] eqn:Ht; cbn; intros _;
      apply bool_decide_eq_false.
    + rewrite lookup_delete_eq. intros [? ?]; discriminate.
    + rewrite Ht. intros [? ?]; discriminate.
Qed.

(** ** Stepping a run *)

Lemma run_vis_ok {A X} (c : call X) (k : X -> prog A) (w w' : World) (x : X) :
  handle c w = (Ok x, w') ->
  run (Vis c k) w = add_event (ev c) (run (k x) w').
Proof. intros Hc. cbn [run]. now rewrite Hc. Qed.

Lemma run_vis_raise {A X} (c : call X) (k : X -> prog A) (w w' : World) (e : exn) :
  handle c w = (Raise e, w') ->
  run (Vis c k) w = (Raise e, w', [ev c]).
Proof. intros Hc. cbn [run]. now rewrite Hc. Qed.

(** One call that returns, one call that raises, given what the handler
    answers. *)
Ltac run_ok H := unfold perform; cbn [bind]; rewrite (run_vis_ok _ _ _ _ _ H).
Ltac run_raise H := unfold perform; cbn [bind]; rewrite (run_vis_raise _ _ _ _ _ H).

(** ** Path traversal (utils.py) *)

Lemma fs_makedirs_exist_ok (name : string) (s : FsState) :
  name <> "" ->
  fs_makedirs name true s =
    (fst (mkdirs_walk (nodes s) (start_dir s name) (split_on slash name)),
     Some {| cwd := cwd s;
             nodes := snd (mkdirs_walk (nodes s) (start_dir s name)
                             (split_on slash name)) |}).
Proof.
  intros Hname. unfold fs_makedirs.
  destruct name as [|c rest]; [contradiction|].
  cbn [negb andb].
  now destruct (mkdirs_walk _ _ _).
Qed.

Lemma run_write_bytes (self : ZipExtractor.t) (file_bytes : list byte)
    (file_name : string) (w : World) (t : gmap (list string) node) (p : list string) :
  dirname file_name <> "" ->
  mkdirs_walk (nodes (fs w)) (start_dir (fs w) (dirname file_name))
    (split_on slash (dirname file_name)) = (Ok tt, t) ->
  write_target {| cwd := cwd (fs w); nodes := t |} file_name = Ok p ->
  run (ZipExtractor.write_bytes_to_binary_file self file_bytes file_name) w =
    (Ok tt,
     with_fs w {| cwd := cwd (fs w); nodes := <[p := File file_bytes]> t |},
     [ev (OsMakedirs (dirname file_name) true);
      ev (OpenFile file_name ModeWB);
      ev (FileWrite {| fh_path := p |} file_bytes)]).
Proof.
  intros Hdir Hmk Htarget.
  unfold ZipExtractor.write_bytes_to_binary_file.
  set (w1 := with_fs w {| cwd := cwd (fs w); nodes := t |}).
  set (w2 := with_fs w1 {| cwd := cwd (fs w); nodes := <[p := File []]> t |}).
  assert (H1 : handle (OsMakedirs (dirname file_name) true) w = (Ok tt, w1)).
  { cbn [handle]. unfold lift. now rewrite (fs_makedirs_exist_ok _ _ Hdir), Hmk. }
  assert (H2 : handle (OpenFile file_name ModeWB) w1 = (Ok {| fh_path := p |}, w2)).
  { cbn [handle]. unfold lift, fs_open. cbn [fs with_fs w1]. now rewrite Htarget. }
  assert (H3 : handle (FileWrite {| fh_path := p |} file_bytes) w2
               = (Ok tt, with_fs w {| cwd := cwd (fs w); nodes := <[p := File file_bytes]> t |})).
  { cbn [handle]. unfold lift, fs_write. cbn [fs with_fs w2 nodes fh_path cwd].
    rewrite lookup_insert_eq. cbn [app]. now rewrite insert_insert_eq. }
  run_ok H1. run_ok H2. run_ok H3. reflexivity.
Qed.

(** C3, as amended.  write_bytes_to_binary_file checks no containment and
    does not consult the staging root: whatever the extractor and the entry
    name, once the directories of the name's directory part are made and the
    name resolves to a file path [p], the call succeeds and [p] holds exactly
    the given bytes, whether or not [p] lies under folder_file_path. *)
Theorem write_bytes_to_binary_file_unconfined (self : ZipExtractor.t)
    (file_bytes : list byte) (file_name : string) (w : World)
    (t : gmap (list string) node) (p : list string) :
  dirname file_name <> "" ->
  mkdirs_walk (nodes (fs w)) (start_dir (fs w) (dirname file_name))
    (split_on slash (dirname file_name)) = (Ok tt, t) ->
  write_target {| cwd := cwd (fs w); nodes := t |} file_name = Ok p ->
  outcome (ZipExtractor.write_bytes_to_binary_file self file_bytes file_name) w = Ok tt /\
  nodes (fs (final (ZipExtractor.write_bytes_to_binary_file self file_bytes file_name) w))
    = <[p := File file_bytes]> t.
Proof.
  intros Hdir Hmk Htarget.
  unfold outcome, final.
  rewrite (run_write_bytes self file_bytes file_name w t p Hdir Hmk Htarget).
  split; reflexivity.
Qed.

Lemma write_bytes_to_binary_file_unconfined_witness :
  outcome (ZipExtractor.write_bytes_to_binary_file staged_extractor payload
             "/srv/stage/../evil/payload.bin") empty_world = Ok tt /\
  nodes (fs (final (ZipExtractor.write_bytes_to_binary_file staged_extractor payload
                      "/srv/stage/../evil/payload.bin") empty_world))
    = <[["srv"; "evil"; "payload.bin"] := File payload]>
        (<[["srv"; "evil"] := Dir]> (nodes (fs empty_world))).
Proof.
  apply (write_bytes_to_binary_file_unconfined staged_extractor payload
           "/srv/stage/../evil/payload.bin" empty_world
           (<[["srv"; "evil"] := Dir]> (nodes (fs empty_world)))
           ["srv"; "evil"; "payload.bin"]).
  - vm_compute. discriminate.
  - vm_compute. reflexivity.
  - vm_compute. reflexivity.
Defined.

(** C3, as stated, fails: the staging root is [/srv/stage], the entry name
    climbs out of it with an upward segment, and the write succeeds and leaves
    the bytes in [/srv/evil/payload.bin]. *)
Lemma traversal_entry_written_outside_root :
  has_upward_segment "/srv/stage/../evil/payload.bin" = true /\
  resolve_dir (fs empty_world) (ZipExtractor.folder_file_path staged_extractor)
    = Ok ["srv"; "stage"] /\
  outcome (ZipExtractor.write_bytes_to_binary_file staged_extractor payload
             "/srv/stage/../evil/payload.bin") empty_world = Ok tt /\
  nodes (fs (final (ZipExtractor.write_bytes_to_binary_file staged_extractor payload
                      "/srv/stage/../evil/payload.bin") empty_world))
    !! ["srv"; "evil"; "payload.bin"] = Some (File payload) /\
  nodes (fs empty_world) !! ["srv"; "evil"; "payload.bin"] = None /\
  is_prefix ["srv"; "stage"] ["srv"; "evil"; "payload.bin"] = false /\
  ~ rejects_traversal staged_extractor payload "/srv/stage/../evil/payload.bin" empty_world.
Proof.
  repeat split; try (vm_compute; reflexivity).
  intros H. destruct (H eq_refl) as [Hfail _]. vm_compute in Hfail. discriminate.
Qed.

(** ** The validation gate (utils.py) *)

Lemma run_init (zip_object : list byte) (folder_file_path : string) (w : World) :
  run (ZipExtractor.__init__ zip_object folder_file_path) w =
    (if is_zipfile (ziplib w) zip_object
     then Ok {| ZipExtractor.zip_object := zip_object;
                ZipExtractor.folder_file_path := folder_file_path |}
     else Raise AssertionError,
     w, [ev (IsZipfile zip_object)]).
Proof.
  unfold ZipExtractor.__init__, ZipExtractor._check_is_zipfile.
  cbn. unfold lift, zip_is_zipfile.
  now destruct (is_zipfile (ziplib w) zip_object).
Qed.




(** Every extractor the constructor returns holds a stream that passed the
    check. *)
Lemma constructed_extractor_is_validated (zip_object : list byte)
    (folder_file_path : string) (w : World) (self : ZipExtractor.t) :
  outcome (ZipExtractor.__init__ zip_object folder_file_path) w = Ok self ->
  is_zipfile (ziplib w) (ZipExtractor.zip_object self) = true /\
  ZipExtractor.zip_object self = zip_object.
Proof.
  unfold outcome. rewrite run_init. cbn.
  destruct (is_zipfile (ziplib w) zip_object) eqn:Hz; [|discriminate].
  intros [= <-]. cbn. auto.
Qed.

(** ** The two write helpers (utils.py) *)

(** write_string_to_file opens the file as it is named and makes no
    directory.  When the name resolves to a file path the file ends up with
    exactly the encoded string, whatever it held before, and nothing else in
    the tree changes. *)
Lemma run_write_string_to_file (self : ZipExtractor.t) (file text : string)
    (w : World) (p : list string) :
  write_target (fs w) file = Ok p ->
  run (ZipExtractor.write_string_to_file self file text) w =
    (Ok tt,
     with_fs w {| cwd := cwd (fs w);
                  nodes := <[p := File (encode_utf8 text)]> (nodes (fs w)) |},
     [ev (OpenFile file ModeW); ev (FileWrite {| fh_path := p |} (encode_utf8 text))]).
Proof.
  intros Htarget. unfold ZipExtractor.write_string_to_file.
  set (w1 := with_fs w {| cwd := cwd (fs w); nodes := <[p := File []]> (nodes (fs w)) |}).
  assert (H1 : handle (OpenFile file ModeW) w = (Ok {| fh_path := p |}, w1)).
  { cbn [handle]. unfold lift, fs_open. now rewrite Htarget. }
  assert (H2 : handle (FileWrite {| fh_path := p |} (encode_utf8 text)) w1
               = (Ok tt, with_fs w {| cwd := cwd (fs w);
                                      nodes := <[p := File (encode_utf8 text)]> (nodes (fs w)) |})).
  { cbn [handle]. unfold lift, fs_write. cbn [fs with_fs w1 nodes fh_path cwd].
    rewrite lookup_insert_eq. cbn [app]. now rewrite insert_insert_eq. }
  run_ok H1. run_ok H2. reflexivity.
Qed.

(** When the name does not resolve, for one because its directory is
    missing, write_string_to_file raises what [open] raises and changes
    nothing. *)
Lemma run_write_string_to_file_unresolved (self : ZipExtractor.t) (file text : string)
    (w : World) (e : exn) :
  write_target (fs w) file = Raise e ->
  run (ZipExtractor.write_string_to_file self file text) w =
    (Raise e, w, [ev (OpenFile file ModeW)]).
Proof.
  intros Htarget. unfold ZipExtractor.write_string_to_file.
  assert (H1 : handle (OpenFile file ModeW) w = (@Raise FileHandle e, w)).
  { cbn [handle]. unfold lift, fs_open. now rewrite Htarget. }
  run_raise H1. reflexivity.
Qed.

(** write_bytes_to_binary_file on a name with no directory part:
    [os.makedirs("")] raises FileNotFoundError and nothing is written. *)
Lemma run_write_bytes_bare_name (self : ZipExtractor.t) (file_bytes : list byte)
    (file_name : string) (w : World) :
  dirname file_name = "" ->
  run (ZipExtractor.write_bytes_to_binary_file self file_bytes file_name) w =
    (Raise FileNotFoundError, w, [ev (OsMakedirs "" true)]).
Proof.
  intros Hdir. unfold ZipExtractor.write_bytes_to_binary_file. rewrite Hdir.
  assert (H1 : handle (OsMakedirs "" true) w = (@Raise unit FileNotFoundError, w)).
  { reflexivity. }
  run_raise H1. reflexivity.
Qed.

(** C9 at its failing inputs.  In a tree with no directory [reports],
    write_string_to_file raises FileNotFoundError and leaves the tree as it
    was, where write_bytes_to_binary_file makes the directory and writes the
    file; and write_bytes_to_binary_file itself raises FileNotFoundError for
    a name with no directory part. *)
Lemma write_helpers_directory_creation :
  run (ZipExtractor.write_string_to_file staged_extractor "reports/summary.md" "ok")
      empty_world
    = (Raise FileNotFoundError, empty_world, [ev (OpenFile "reports/summary.md" ModeW)]) /\
  outcome (ZipExtractor.write_bytes_to_binary_file staged_extractor (encode_utf8 "ok")
             "reports/summary.md") empty_world = Ok tt /\
  nodes (fs (final (ZipExtractor.write_bytes_to_binary_file staged_extractor
                      (encode_utf8 "ok") "reports/summary.md") empty_world))
    !! ["home"; "user"; "reports"; "summary.md"] = Some (File (encode_utf8 "ok")) /\
  run (ZipExtractor.write_bytes_to_binary_file staged_extractor (encode_utf8 "ok")
         "summary.md") empty_world
    = (Raise FileNotFoundError, empty_world, [ev (OsMakedirs "" true)]).
Proof.
  repeat split; vm_compute; reflexivity.
Qed.

(** ** Moving a blob (storage.py) *)

Lemma completed_vis {A X} (n : nat) (c : call X) (k : X -> prog A) (w : World) :
  completed (S n) (Vis c k) w = true ->
  exists x w', handle c w = (Ok x, w') /\ completed n (k x) w' = true.
Proof.
  cbn [completed]. destruct (handle c w) as [[x | e] w']; [eauto | discriminate].
Qed.

Lemma interrupted_vis_ok {A X} (n : nat) (c : call X) (k : X -> prog A)
    (w w' : World) (x : X) :
  handle c w = (Ok x, w') ->
  interrupted (S n) (Vis c k) w = interrupted n (k x) w'.
Proof. intros Hc. cbn [interrupted]. now rewrite Hc. Qed.

Lemma trace_add_event {A} (e : event) (r : result A * World * list event) :
  snd (add_event e r) = e :: snd r.
Proof. now destruct r as [[x w] tr]. Qed.

Lemma handle_get_bucket_ok (name : string) (w w' : World) (b : Bucket) :
  handle (StorageGetBucket name) w = (Ok b, w') ->
  b = {| bucket_name := name |} /\ w' = w /\ is_Some (gcs_buckets (gcs w) !! name).
Proof.
  cbn [handle]. unfold lift, gcs_get_bucket.
  destruct (gcs_buckets (gcs w) !! name) as [blobs|]; [|discriminate].
  intros [= <- <-]. eauto.
Qed.

Lemma handle_copy_blob_ok (src : Bucket) (blob : Blob) (dst : Bucket) (new_name : string)
    (w w' : World) (b : Blob) :
  handle (BucketCopyBlob src blob dst new_name) w = (Ok b, w') ->
  exists src_blobs content dst_blobs,
    gcs_buckets (gcs w) !! blob_bucket blob = Some src_blobs /\
    src_blobs !! blob_name blob = Some content /\
    gcs_buckets (gcs w) !! bucket_name dst = Some dst_blobs /\
    w' = with_gcs w {| gcs_buckets :=
                         <[bucket_name dst := <[new_name := content]> dst_blobs]>
                           (gcs_buckets (gcs w)) |}.
Proof.
  cbn [handle]. unfold lift, gcs_copy_blob.
  destruct (gcs_buckets (gcs w) !! blob_bucket blob) as [src_blobs|] eqn:Hsrc;
    [|discriminate].
  destruct (src_blobs !! blob_name blob) as [content|] eqn:Hblob; [|discriminate].
  destruct (gcs_buckets (gcs w) !! bucket_name dst) as [dst_blobs|] eqn:Hdst;
    [|discriminate].
  intros [= <- <-]. exists src_blobs, content, dst_blobs. auto.
Qed.

(** C5.  move_blob looks up the two buckets, copies, then deletes the source,
    in that order.  When the process stops after the copy has returned and
    before the delete is made, the source blob is still there and the
    destination blob holds the same content. *)
Theorem move_blob_interrupted_after_copy (self : GCSClientHelper.t)
    (src src_blob dst dst_blob : string) (w : World) :
  let move := GCSClientHelper.move_blob self src src_blob dst dst_blob in
  completed 3 move w = true ->
  trace move w =
    [ev (StorageGetBucket src);
     ev (StorageGetBucket dst);
     ev (BucketCopyBlob {| bucket_name := src |}
           {| blob_bucket := src; blob_name := src_blob |}
           {| bucket_name := dst |} dst_blob);
     ev (BlobDelete {| blob_bucket := src; blob_name := src_blob |})] /\
  exists content,
    blob_content w src src_blob = Some content /\
    blob_content (interrupted 3 move w) src src_blob = Some content /\
    blob_content (interrupted 3 move w) dst dst_blob = Some content.
Proof.
  intros move. subst move.
  unfold GCSClientHelper.move_blob, trace, perform. cbn [bind].
  intros Hc.
  apply completed_vis in Hc as (b1 & w1 & H1 & Hc).
  destruct (handle_get_bucket_ok _ _ _ _ H1) as (-> & -> & _).
  cbn [bind] in Hc.
  apply completed_vis in Hc as (b2 & w2 & H2 & Hc).
  destruct (handle_get_bucket_ok _ _ _ _ H2) as (-> & -> & _).
  cbn [bind] in Hc. unfold GCSClientHelper.bucket_blob in *. cbn [bucket_name] in *.
  apply completed_vis in Hc as (b3 & w3 & H3 & _).
  destruct (handle_copy_blob_ok _ _ _ _ _ _ _ H3)
    as (src_blobs & content & dst_blobs & Hsrc & Hblob & Hdst & ->).
  cbn [blob_bucket blob_name bucket_name] in Hsrc, Hblob, Hdst.
  split.
  - rewrite (run_vis_ok _ _ _ _ _ H1), trace_add_event. cbn [bind].
    rewrite (run_vis_ok _ _ _ _ _ H2), trace_add_event. cbn [bind bucket_name].
    rewrite (run_vis_ok _ _ _ _ _ H3), trace_add_event. cbn [bind run].
    destruct (handle (BlobDelete _) _) as [[x | e] w4]; reflexivity.
  - exists content.
    rewrite (interrupted_vis_ok _ _ _ _ _ _ H1). cbn [bind].
    rewrite (interrupted_vis_ok _ _ _ _ _ _ H2). cbn [bind bucket_name].
    rewrite (interrupted_vis_ok _ _ _ _ _ _ H3). cbn [interrupted].
    unfold blob_content. cbn [gcs with_gcs gcs_buckets].
    rewrite Hsrc. cbn. split; [exact Hblob|]. split.
    + destruct (decide (dst = src)) as [-> | Hne].
      * rewrite lookup_insert_eq. cbn.
        assert (dst_blobs = src_blobs) as -> by congruence.
        destruct (decide (dst_blob = src_blob)) as [-> | Hne'].
        -- now rewrite lookup_insert_eq.
        -- now rewrite lookup_insert_ne.
      * rewrite lookup_insert_ne by exact Hne. rewrite Hsrc. exact Hblob.
    + rewrite lookup_insert_eq. cbn. now rewrite lookup_insert_eq.
Qed.

Lemma move_blob_interrupted_after_copy_witness :
  trace (GCSClientHelper.move_blob gcs_helper "landing" "in.csv" "archive" "2024/in.csv")
        world_with_buckets =
    [ev (StorageGetBucket "landing");
     ev (StorageGetBucket "archive");
     ev (BucketCopyBlob {| bucket_name := "landing" |}
           {| blob_bucket := "landing"; blob_name := "in.csv" |}
           {| bucket_name := "archive" |} "2024/in.csv");
     ev (BlobDelete {| blob_bucket := "landing"; blob_name := "in.csv" |})] /\
  exists content,
    blob_content world_with_buckets "landing" "in.csv" = Some content /\
    blob_content
      (interrupted 3
         (GCSClientHelper.move_blob gcs_helper "landing" "in.csv" "archive" "2024/in.csv")
         world_with_buckets) "landing" "in.csv" = Some content /\
    blob_content
      (interrupted 3
         (GCSClientHelper.move_blob gcs_helper "landing" "in.csv" "archive" "2024/in.csv")
         world_with_buckets) "archive" "2024/in.csv" = Some content.
Proof.
  exact (move_blob_interrupted_after_copy gcs_helper "landing" "in.csv" "archive"
           "2024/in.csv" world_with_buckets eq_refl).
Defined.

(** Whatever the world, the calls of move_blob are an initial part of the
    same four calls: the delete is never made before the copy has returned. *)
Lemma move_blob_calls_in_order (self : GCSClientHelper.t)
    (src src_blob dst dst_blob : string) (w : World) :
  exists n,
    trace (GCSClientHelper.move_blob self src src_blob dst dst_blob) w =
      take n
        [ev (StorageGetBucket src);
         ev (StorageGetBucket dst);
         ev (BucketCopyBlob {| bucket_name := src |}
               {| blob_bucket := src; blob_name := src_blob |}
               {| bucket_name := dst |} dst_blob);
         ev (BlobDelete {| blob_bucket := src; blob_name := src_blob |})].
Proof.
  unfold GCSClientHelper.move_blob, trace, perform. cbn [bind run].
  destruct (handle (StorageGetBucket src) w) as [[b1 | e1] w1] eqn:H1;
    [|now exists 1%nat].
  destruct (handle_get_bucket_ok _ _ _ _ H1) as (-> & -> & _).
  rewrite trace_add_event. cbn [bind run].
  destruct (handle (StorageGetBucket dst) w) as [[b2 | e2] w2] eqn:H2;
    [|now exists 2%nat].
  destruct (handle_get_bucket_ok _ _ _ _ H2) as (-> & -> & _).
  rewrite trace_add_event. cbn [bind run].
  unfold GCSClientHelper.bucket_blob. cbn [bucket_name].
  destruct (handle (BucketCopyBlob _ _ _ _) w) as [[b3 | e3] w3]; [|now exists 3%nat].
  rewrite trace_add_event. cbn [bind run].
  destruct (handle (BlobDelete _) w3) as [[x | e4] w4]; now exists 4%nat.
Qed.

(** ** Pulling messages (pubsub.py) *)

Lemma outcome_vis {A X} (c : call X) (k : X -> prog A) (w : World) :
  outcome (Vis c k) w =
    match handle c w with
    | (Ok x, w') => outcome (k x) w'
    | (Raise e, _) => Raise e
    end.
Proof.
  unfold outcome. cbn [run].
  destruct (handle c w) as [[x | e] w']; [|reflexivity].
  now destruct (run (k x) w') as [[r w''] tr].
Qed.

Lemma final_vis {A X} (c : call X) (k : X -> prog A) (w : World) :
  final (Vis c k) w =
    match handle c w with
    | (Ok x, w') => final (k x) w'
    | (Raise e, w') => w'
    end.
Proof.
  unfold final. cbn [run].
  destruct (handle c w) as [[x | e] w']; [|reflexivity].
  now destruct (run (k x) w') as [[r w''] tr].
Qed.

Lemma trace_vis {A X} (c : call X) (k : X -> prog A) (w : World) :
  trace (Vis c k) w =
    match handle c w with
    | (Ok x, w') => ev c :: trace (k x) w'
    | (Raise e, _) => [ev c]
    end.
Proof.
  unfold trace. cbn [run].
  destruct (handle c w) as [[x | e] w']; [|reflexivity].
  now destruct (run (k x) w') as [[r w''] tr].
Qed.

Lemma map_result_length {A B} (f : A -> result B) (xs : list A) (ys : list B) :
  map_result f xs = Ok ys -> length ys = length xs.
Proof.
  revert ys. induction xs as [|x rest IH]; intros ys; cbn.
  - now intros [= <-].
  - destruct (f x) as [y|e]; [|discriminate].
    destruct (map_result f rest) as [ys'|e]; [|discriminate].
    intros [= <-]. cbn. now rewrite (IH ys' eq_refl).
Qed.

Lemma handle_pull_ok (name : string) (max_messages : Z) (w w' : World)
    (delivered : list ReceivedMessage) :
  handle (SubscriberPull name max_messages) w = (Ok delivered, w') ->
  exists sub,
    subscriptions (pubsub w) !! name = Some sub /\
    0 < max_messages /\
    delivered = take (Z.to_nat max_messages) (backlog sub) /\
    w' = with_pubsub w
           {| topics := topics (pubsub w);
              subscriptions :=
                <[name := {| sub_topic := sub_topic sub;
                             backlog := drop (Z.to_nat max_messages) (backlog sub);
                             outstanding := outstanding sub ++ delivered;
                             acked := acked sub |}]> (subscriptions (pubsub w)) |}.
Proof.
  cbn [handle]. unfold lift, pubsub_pull.
  destruct (subscriptions (pubsub w) !! name) as [sub|] eqn:Hsub; [|discriminate].
  destruct (max_messages <=? 0) eqn:Hmax; [discriminate|].
  intros [= <- <-]. exists sub. split; [reflexivity|]. split; [lia|]. split; reflexivity.
Qed.

Lemma handle_acknowledge_ok (name : string) (ids : list string) (w w' : World) (u : unit) :
  handle (SubscriberAcknowledge name ids) w = (Ok u, w') ->
  exists sub,
    subscriptions (pubsub w) !! name = Some sub /\
    ids <> [] /\
    w' = with_pubsub w
           {| topics := topics (pubsub w);
              subscriptions :=
                <[name := {| sub_topic := sub_topic sub;
                             backlog := backlog sub;
                             outstanding :=
                               List.filter (fun m => negb (is_acked ids m)) (outstanding sub);
                             acked := acked sub ++ ids |}]> (subscriptions (pubsub w)) |}.
Proof.
  cbn [handle]. unfold lift, pubsub_acknowledge.
  destruct (subscriptions (pubsub w) !! name) as [sub|] eqn:Hsub; [|discriminate].
  destruct ids as [|i ids]; [discriminate|].
  destruct u. intros [= <-]. exists sub. split; [reflexivity|]. split; [discriminate|]. reflexivity.
Qed.

Lemma is_acked_in (ids : list string) (m : ReceivedMessage) :
  In (ack_id m) ids -> is_acked ids m = true.
Proof.
  intros Hin. unfold is_acked. apply existsb_exists.
  exists (ack_id m). split; [exact Hin | apply String.eqb_refl].
Qed.

(** pull_messages does return: on a subscription with messages waiting, all
    valid UTF-8, and a positive bound, it returns the decoded payloads. *)
Lemma pull_messages_returns (self : PubSubClientHelper.t) (subscription_id : string)
    (max_messages : Z) (w : World) (sub : SubscriptionState) (messages : list string) :
  subscriptions (pubsub w)
    !! subscription_path (PubSubClientHelper.project_id self) subscription_id = Some sub ->
  0 < max_messages ->
  take (Z.to_nat max_messages) (backlog sub) <> [] ->
  map_result (fun msg => decode_utf8 (data msg)) (take (Z.to_nat max_messages) (backlog sub))
    = Ok messages ->
  outcome (PubSubClientHelper.pull_messages self subscription_id max_messages) w
    = Ok messages.
Proof.
  intros Hsub Hmax Hne Hdec.
  unfold PubSubClientHelper.pull_messages, perform. cbn [bind].
  rewrite outcome_vis. cbn [handle]. unfold lift at 1. unfold pubsub_pull.
  rewrite Hsub. destruct (max_messages <=? 0) eqn:Hle; [lia|].
  rewrite Hdec. cbn [of_result bind].
  rewrite outcome_vis. cbn [handle]. unfold lift, pubsub_acknowledge.
  cbn [pubsub with_pubsub subscriptions]. rewrite lookup_insert_eq.
  destruct (take (Z.to_nat max_messages) (backlog sub)) as [|m rest]; [contradiction|].
  reflexivity.
Qed.

(** C6.  Whenever pull_messages returns, it returns the decoded payloads of
    the messages the one pull call delivered, at most max_messages of them,
    and it has acknowledged every one of them before returning: the trace is
    the pull followed by one acknowledge call with all their ack ids, and in
    the world it leaves each delivered message is acknowledged and no longer
    outstanding. *)
Theorem pull_messages_bounded_and_acknowledged (self : PubSubClientHelper.t)
    (subscription_id : string) (max_messages : Z) (w : World) (messages : list string) :
  let pull := PubSubClientHelper.pull_messages self subscription_id max_messages in
  let path := subscription_path (PubSubClientHelper.project_id self) subscription_id in
  outcome pull w = Ok messages ->
  exists delivered sub',
    map_result (fun msg => decode_utf8 (data msg)) delivered = Ok messages /\
    Z.of_nat (length messages) <= max_messages /\
    trace pull w = [ev (SubscriberPull path max_messages);
                    ev (SubscriberAcknowledge path (map ack_id delivered))] /\
    subscriptions (pubsub (final pull w)) !! path = Some sub' /\
    Forall (fun m => In (ack_id m) (acked sub') /\ ~ In m (outstanding sub')) delivered.
Proof.
  intros pull path. subst pull.
  unfold PubSubClientHelper.pull_messages, perform. fold path. cbn [bind].
  rewrite outcome_vis, trace_vis, final_vis.
  destruct (handle (SubscriberPull path max_messages) w) as [[delivered | e] w1] eqn:H1;
    [|discriminate].
  destruct (handle_pull_ok _ _ _ _ _ H1) as (sub & Hsub & Hmax & Hdel & Hw1).
  destruct (map_result (fun msg => decode_utf8 (data msg)) delivered) as [msgs | e] eqn:Hdec;
    cbn [of_result bind]; [|discriminate].
  rewrite outcome_vis, trace_vis, final_vis.
  destruct (handle (SubscriberAcknowledge path (map ack_id delivered)) w1)
    as [[u | e] w2] eqn:H2; [|discriminate].
  unfold outcome, final, trace. cbn [run fst snd]. intros [= <-].
  destruct (handle_acknowledge_ok _ _ _ _ _ H2) as (sub1 & Hsub1 & Hids & Hw2).
  exists delivered. eexists. split; [exact Hdec|]. split.
  - rewrite (map_result_length _ _ _ Hdec), Hdel, length_take. lia.
  - split; [reflexivity|]. split.
    + rewrite Hw2. cbn [pubsub with_pubsub subscriptions]. apply lookup_insert_eq.
    + cbn [acked outstanding]. apply List.Forall_forall. intros m Hm. split.
      * apply in_or_app. right. now apply in_map.
      * intros Hin. apply filter_In in Hin as [_ Hf].
        rewrite is_acked_in in Hf by now apply in_map. discriminate.
Qed.

Lemma pull_messages_bounded_and_acknowledged_witness :
  exists delivered sub',
    map_result (fun msg => decode_utf8 (data msg)) delivered = Ok ["hello"; "world"] /\
    Z.of_nat (length ["hello"; "world"]) <= 2 /\
    trace (PubSubClientHelper.pull_messages pubsub_helper "orders-sub" 2)
          world_with_subscription
      = [ev (SubscriberPull "projects/acme/subscriptions/orders-sub" 2);
         ev (SubscriberAcknowledge "projects/acme/subscriptions/orders-sub"
               (map ack_id delivered))] /\
    subscriptions
      (pubsub (final (PubSubClientHelper.pull_messages pubsub_helper "orders-sub" 2)
                 world_with_subscription))
      !! "projects/acme/subscriptions/orders-sub" = Some sub' /\
    Forall (fun m => In (ack_id m) (acked sub') /\ ~ In m (outstanding sub')) delivered.
Proof.
  apply (pull_messages_bounded_and_acknowledged pubsub_helper "orders-sub" 2
           world_with_subscription ["hello"; "world"]).
  vm_compute. reflexivity.
Defined.

(** ** Loading a blob into a table (storage.py) *)


Example load_of_missing_blob_raises :
  outcome (GCSClientHelper.blob_to_bigquery_table gcs_helper "landing" "missing.csv"
             "acme.sales.orders") world_with_failing_load
    = Raise (JobFailed "Not found: URI gs://landing/missing.csv").
Proof. reflexivity. Qed.

Example load_of_present_blob_returns :
  outcome (GCSClientHelper.blob_to_bigquery_table gcs_helper "landing" "in.csv"
             "acme.sales.orders") world_with_failing_load = Ok tt.
Proof. reflexivity. Qed.

(** ** Resource paths *)

Lemma first_call_vis {A X} (c : call X) (k : X -> prog A) (w : World) :
  first_call (Vis c k) w = Some (ev c).
Proof.
  unfold first_call. rewrite trace_vis.
  now destruct (handle c w) as [[x | e] w'].
Qed.

Lemma resolved_path_vis {A X} (c : call X) (k : X -> prog A) (w : World) :
  resolved_path (Vis c k) w = call_path c.
Proof. unfold resolved_path. now rewrite first_call_vis. Qed.

(** Every lifecycle helper starts with a call that its components fix. *)
Lemma create_starts_with_call (op : create_op) :
  exists (X : Type) (c : call X) (k : X -> prog handle_value), create op = Vis c k.
Proof.
  destruct op as [self d | self ds tn schema pf cf | self ds vn q | self n | self tid
                 | self tid sid | self i c l sn | self i tid fam | self i tr m];
    cbn [create].
  2: { destruct (create_table_call self ds tn schema pf cf) as (tb & _ & ->).
       unfold perform. cbn [bind]. eauto. }
  all: unfold BigQueryClientHelper.create_dataset, BigQueryClientHelper.create_view,
         GCSClientHelper.create_bucket, PubSubClientHelper.create_topic,
         PubSubClientHelper.create_subscription, BigtableClientHelper.create_instance,
         BigtableClientHelper.create_table, MemorystoreClientHelper.create_instance, perform;
       cbn [bind]; eauto.
Qed.

Lemma delete_starts_with_call (op : delete_op) :
  exists (X : Type) (c : call X) (k : X -> prog unit), delete_prog op = Vis c k.
Proof.
  destruct op; cbn [delete_prog];
    unfold BigQueryClientHelper.delete_dataset, BigQueryClientHelper.delete_table,
      BigQueryClientHelper.delete_view, GCSClientHelper.delete_bucket,
      PubSubClientHelper.delete_topic, PubSubClientHelper.delete_subscription,
      BigtableClientHelper.delete_instance, BigtableClientHelper.delete_table,
      MemorystoreClientHelper.delete_instance, KubernetesClientHelper.delete_pod, perform;
    cbn [bind]; eauto.
Qed.

Lemma resolved_path_create (op : create_op) (w : World) :
  resolved_path (create op) w =
    match op with
    | CreateDataset self d =>
        Some (project (BigQueryClientHelper.client self) +:+ "." +:+ d)
    | CreateTable self ds tn _ _ _ =>
        Some (BigQueryClientHelper.project_id self +:+ "." +:+ ds +:+ "." +:+ tn)
    | CreateView self ds vn _ =>
        Some (BigQueryClientHelper.project_id self +:+ "." +:+ ds +:+ "." +:+ vn)
    | CreateBucket _ n => Some n
    | CreateTopic self tid =>
        Some ("projects/" +:+ PubSubClientHelper.project_id self +:+ "/topics/" +:+ tid)
    | CreateSubscription self _ sid =>
        Some ("projects/" +:+ PubSubClientHelper.project_id self +:+ "/subscriptions/" +:+ sid)
    | CreateBtInstance _ _ _ _ _ | CreateBtTable _ _ _ _ => None
    | CreateRedisInstance self i _ _ =>
        Some (MemorystoreClientHelper.parent self +:+ "/instances/" +:+ i)
    end.
Proof.
  destruct op as [self d | self ds tn schema pf cf | self ds vn q | self n | self tid
                 | self tid sid | self i c l sn | self i tid fam | self i tr m];
    cbn [create].
  2: { destruct (create_table_call self ds tn schema pf cf) as (tb & Href & ->).
       unfold perform. cbn [bind]. rewrite resolved_path_vis. cbn [call_path].
       now rewrite Href. }
  all: unfold BigQueryClientHelper.create_dataset, BigQueryClientHelper.create_view,
         GCSClientHelper.create_bucket, PubSubClientHelper.create_topic,
         PubSubClientHelper.create_subscription, BigtableClientHelper.create_instance,
         BigtableClientHelper.create_table, MemorystoreClientHelper.create_instance, perform;
       cbn [bind]; now rewrite resolved_path_vis.
Qed.

Lemma resolved_path_delete (op : delete_op) (w : World) :
  resolved_path (delete_prog op) w =
    match op with
    | DeleteDataset self d _ => Some (resolve_dataset (BigQueryClientHelper.client self) d)
    | DeleteTable self ds tn =>
        Some (BigQueryClientHelper.project_id self +:+ "." +:+ ds +:+ "." +:+ tn)
    | DeleteView self ds vn =>
        Some (BigQueryClientHelper.project_id self +:+ "." +:+ ds +:+ "." +:+ vn)
    | DeleteBucket _ n => Some n
    | DeleteTopic self tid =>
        Some ("projects/" +:+ PubSubClientHelper.project_id self +:+ "/topics/" +:+ tid)
    | DeleteSubscription self sid =>
        Some ("projects/" +:+ PubSubClientHelper.project_id self +:+ "/subscriptions/" +:+ sid)
    | DeleteBtInstance _ _ | DeleteBtTable _ _ _ | DeletePod _ _ _ => None
    | DeleteRedisInstance self i =>
        Some (MemorystoreClientHelper.parent self +:+ "/instances/" +:+ i)
    end.
Proof.
  destruct op; cbn [delete_prog];
    unfold BigQueryClientHelper.delete_dataset, BigQueryClientHelper.delete_table,
      BigQueryClientHelper.delete_view, GCSClientHelper.delete_bucket,
      PubSubClientHelper.delete_topic, PubSubClientHelper.delete_subscription,
      BigtableClientHelper.delete_instance, BigtableClientHelper.delete_table,
      MemorystoreClientHelper.delete_instance, KubernetesClientHelper.delete_pod, perform;
    cbn [bind]; now rewrite resolved_path_vis.
Qed.

(** C8.  What a lifecycle helper resolves depends on the helper's components
    only: the same create or delete helper with the same components makes the
    same first call and names the same path in any two worlds, so also when
    called twice in a row.  In particular create_table names
    project.dataset.table, the Memorystore parent is
    projects/project/locations/location and delete_instance names
    parent/instances/id. *)
Theorem resolved_paths_are_deterministic :
  (forall (op : create_op) (w1 w2 : World),
     first_call (create op) w1 = first_call (create op) w2 /\
     resolved_path (create op) w1 = resolved_path (create op) w2 /\
     resolved_path (create op) (final (create op) w1) = resolved_path (create op) w1) /\
  (forall (op : delete_op) (w1 w2 : World),
     first_call (delete_prog op) w1 = first_call (delete_prog op) w2 /\
     resolved_path (delete_prog op) w1 = resolved_path (delete_prog op) w2 /\
     resolved_path (delete_prog op) (final (delete_prog op) w1)
       = resolved_path (delete_prog op) w1) /\
  (forall self ds tn schema pf cf w,
     resolved_path (BigQueryClientHelper.create_table self ds tn schema pf cf) w
       = Some (BigQueryClientHelper.project_id self +:+ "." +:+ ds +:+ "." +:+ tn)) /\
  (forall project_id location,
     MemorystoreClientHelper.parent (MemorystoreClientHelper.init project_id location)
       = "projects/" +:+ project_id +:+ "/locations/" +:+ location) /\
  (forall self instance_id w,
     resolved_path (MemorystoreClientHelper.delete_instance self instance_id) w
       = Some (MemorystoreClientHelper.parent self +:+ "/instances/" +:+ instance_id)).
Proof.
  split; [|split; [|split; [|split]]].
  - intros op w1 w2.
    destruct (create_starts_with_call op) as (X & c & k & ->).
    now rewrite !first_call_vis, !resolved_path_vis.
  - intros op w1 w2.
    destruct (delete_starts_with_call op) as (X & c & k & ->).
    now rewrite !first_call_vis, !resolved_path_vis.
  - intros self ds tn schema pf cf w.
    destruct (create_table_call self ds tn schema pf cf) as (tb & Href & ->).
    unfold perform. rewrite resolved_path_vis. cbn [call_path]. now rewrite Href.
  - reflexivity.
  - intros self instance_id w.
    unfold MemorystoreClientHelper.delete_instance, perform. cbn [bind].
    now rewrite resolved_path_vis.
Qed.

(** ** Reading a row (bigtable.py) *)



Example read_row_of_missing_key :
  outcome (BigtableClientHelper.read_row bigtable_helper "inst" "events" "row9")
    world_with_row = Ok ∅.
Proof. reflexivity. Qed.

Example read_row_of_present_key :
  outcome (BigtableClientHelper.read_row bigtable_helper "inst" "events" "row1")
    world_with_row
    = Ok (<["cf:col" := [ {| cell_value := list_byte_of_string "v";
                              cell_timestamp := 1700000000 |} ]]> ∅).
Proof. vm_compute. reflexivity. Qed.

(** read_row of a table that does not exist raises NotFound. *)
Example read_row_of_missing_table :
  outcome (BigtableClientHelper.read_row bigtable_helper "inst" "nope" "row1")
    world_with_row = Raise NotFound.
Proof. reflexivity. Qed.

(** ** Checks on concrete inputs *)

Example split_on_absolute : split_on slash "/srv/stage/../x" = [""; "srv"; "stage"; ".."; "x"].
Proof. reflexivity. Qed.

Example dirname_nested : dirname "out/a/b.bin" = "out/a".
Proof. reflexivity. Qed.

Example dirname_bare : dirname "b.bin" = "".
Proof. reflexivity. Qed.

Example dirname_root : dirname "/b.bin" = "/".
Proof. reflexivity. Qed.

Example dirname_double_slash : dirname "a//b" = "a".
Proof. reflexivity. Qed.

Example decode_ascii : decode_utf8 (list_byte_of_string "hello") = Ok "hello".
Proof. reflexivity. Qed.

Example decode_invalid : decode_utf8 ["255"%byte] = Raise UnicodeDecodeError.
Proof. reflexivity. Qed.

(** create_dataset twice: the second call returns the dataset the first one
    stored and changes nothing. *)
Example create_dataset_twice :
  let first := run (BigQueryClientHelper.create_dataset bq_helper "sales") empty_world in
  let second := run (BigQueryClientHelper.create_dataset bq_helper "sales") (snd (fst first)) in
  fst (fst first) = Ok {| dataset_ref := "acme.sales"; dataset_etag := Some 0%nat |} /\
  fst (fst second) = fst (fst first) /\
  snd (fst second) = snd (fst first).
Proof. vm_compute. repeat split; reflexivity. Qed.

(** create_bucket twice: the second call raises Conflict. *)
Example create_bucket_twice :
  let first := run (GCSClientHelper.create_bucket gcs_helper "fresh") empty_world in
  let second := run (GCSClientHelper.create_bucket gcs_helper "fresh") (snd (fst first)) in
  fst (fst first) = Ok {| bucket_name := "fresh" |} /\
  fst (fst second) = Raise Conflict.
Proof. vm_compute. split; reflexivity. Qed.

(** delete_table twice on a stored table: both calls succeed. *)
Example delete_table_twice :
  let w := final (BigQueryClientHelper.create_table bq_helper "sales" "orders"
                    [ {| field_name := "id"; field_type := "INT64" |} ] None None)
                 world_with_dataset in
  let first := run (BigQueryClientHelper.delete_table bq_helper "sales" "orders") w in
  let second := run (BigQueryClientHelper.delete_table bq_helper "sales" "orders")
                    (snd (fst first)) in
  is_Some (bq_tables (bq w) !! "acme.sales.orders") /\
  fst (fst first) = Ok tt /\
  fst (fst second) = Ok tt /\
  bq_tables (bq (snd (fst second))) !! "acme.sales.orders" = None.
Proof. vm_compute. repeat split; eauto. Qed.

(** A pull from a subscription with nothing waiting: the acknowledge call
    with no ack ids is refused, and the helper raises. *)
Example pull_messages_of_empty_backlog :
  outcome (PubSubClientHelper.pull_messages pubsub_helper "orders-sub" 10)
    (final (PubSubClientHelper.pull_messages pubsub_helper "orders-sub" 10)
       world_with_subscription)
    = Raise InvalidArgument.
Proof. vm_compute. reflexivity. Qed.

(** An overwrite: the file holds the new text only. *)
Example write_string_to_file_overwrites :
  let w := final (ZipExtractor.write_string_to_file staged_extractor "/srv/stage/a.txt"
                    "first version") empty_world in
  nodes (fs w) !! ["srv"; "stage"; "a.txt"] = Some (File (encode_utf8 "first version")) /\
  nodes (fs (final (ZipExtractor.write_string_to_file staged_extractor "/srv/stage/a.txt"
                      "second") w))
    !! ["srv"; "stage"; "a.txt"] = Some (File (encode_utf8 "second")).
Proof. vm_compute. split; reflexivity. Qed.

(** * Further properties of the helpers *)

(** ** Tools *)

Lemma run_perform {X} (c : call X) (w : World) :
  run (perform c) w = (fst (handle c w), snd (handle c w), [ev c]).
Proof.
  unfold perform. cbn [run].
  now destruct (handle c w) as [[x | e] w'].
Qed.

Lemma run_vis_ret {X} (c : call X) (w : World) :
  run (Vis c Ret) w = (fst (handle c w), snd (handle c w), [ev c]).
Proof. exact (run_perform c w). Qed.





Lemma tables_of_holds (s : BqState) (d t : string) (x : Table) :
  bq_tables s !! t = Some x -> in_dataset d t = true ->
  Nat.eqb (size (tables_of d s)) 0 = false.
Proof.
  intros Ht Hin. apply Nat.eqb_neq.
  apply (map_size_ne_0_lookup_2 _ t). exists x.
  unfold tables_of. apply map_lookup_filter_Some. auto.
Qed.

(** ** bigquery.py *)




Lemma run_create_dataset (self : BigQueryClientHelper.t) (ds : string) (w : World) :
  is_Some (bq_datasets (bq (final (BigQueryClientHelper.create_dataset self ds) w))
             !! (project (BigQueryClientHelper.client self) +:+ "." +:+ ds)).
Proof.
  unfold BigQueryClientHelper.create_dataset, final. rewrite run_perform.
  cbn [fst snd handle]. unfold lift, bq_create_dataset.
  cbn [BigQueryClientHelper.new_dataset dataset_ref].
  destruct (bq_datasets (bq w) !! _) as [d0|] eqn:Hd; cbn [fst snd].
  - rewrite Hd. eauto.
  - cbn [bq with_bq bq_datasets]. rewrite lookup_insert_eq. eauto.
Qed.



Lemma resolve_dataset_plain (c : BqClient) (ds : string) :
  contains_char "."%char ds = false -> resolve_dataset c ds = project c +:+ "." +:+ ds.
Proof. intros Hplain. unfold resolve_dataset. now rewrite Hplain. Qed.

(** X3.  create_dataset followed by delete_dataset with delete_contents=True
    always ends with the dataset absent, and the delete succeeds, for a
    dataset id with no dot: create_dataset names the dataset
    client.project.id and delete_dataset hands the bare id to the client,
    which completes it with the same project. *)
Theorem create_dataset_then_delete_dataset (self : BigQueryClientHelper.t)
    (ds : string) (w : World) :
  let w1 := final (BigQueryClientHelper.create_dataset self ds) w in
  let delete := BigQueryClientHelper.delete_dataset self ds true in
  contains_char "."%char ds = false ->
  outcome delete w1 = Ok tt /\
  bq_datasets (bq (final delete w1))
    !! (project (BigQueryClientHelper.client self) +:+ "." +:+ ds) = None.
Proof.
  intros w1 delete Hplain.
  destruct (run_create_dataset self ds w) as [d Hd]. fold w1 in Hd.
  subst delete. unfold BigQueryClientHelper.delete_dataset, outcome, final.
  rewrite run_perform. cbn [fst snd handle]. unfold lift, bq_delete_dataset.
  rewrite (resolve_dataset_plain _ _ Hplain), Hd.
  cbn [orb fst snd bq with_bq bq_datasets].
  split; [reflexivity | apply lookup_delete_eq].
Qed.

Lemma create_dataset_then_delete_dataset_witness :
  outcome (BigQueryClientHelper.delete_dataset bq_helper "sales" true)
    (final (BigQueryClientHelper.create_dataset bq_helper "sales") world_with_table) = Ok tt /\
  bq_datasets
    (bq (final (BigQueryClientHelper.delete_dataset bq_helper "sales" true)
           (final (BigQueryClientHelper.create_dataset bq_helper "sales") world_with_table)))
    !! "acme.sales" = None.
Proof.
  exact (create_dataset_then_delete_dataset bq_helper "sales" world_with_table eq_refl).
Defined.

(** X4.  delete_dataset hands delete_contents to the client as given.  On a
    dataset that holds a table, delete_contents=False raises BadRequest and
    changes nothing; delete_contents=True removes the dataset together with
    every table of it and leaves the tables of other datasets alone. *)
Theorem delete_dataset_holding_tables (self : BigQueryClientHelper.t) (ds : string)
    (w : World) (tn : string) (tb : Table) :
  let key := resolve_dataset (BigQueryClientHelper.client self) ds in
  let keep := BigQueryClientHelper.delete_dataset self ds false in
  let purge := BigQueryClientHelper.delete_dataset self ds true in
  is_Some (bq_datasets (bq w) !! key) ->
  bq_tables (bq w) !! tn = Some tb ->
  in_dataset key tn = true ->
  (outcome keep w = Raise BadRequest /\ final keep w = w) /\
  (outcome purge w = Ok tt /\
   bq_datasets (bq (final purge w)) !! key = None /\
   (forall t, in_dataset key t = true -> bq_tables (bq (final purge w)) !! t = None) /\
   (forall t, in_dataset key t = false ->
      bq_tables (bq (final purge w)) !! t = bq_tables (bq w) !! t)).
Proof.
  intros key keep purge [d Hd] Htb Hin. subst keep purge.
  unfold BigQueryClientHelper.delete_dataset, outcome, final.
  rewrite !run_perform. cbn [fst snd handle]. unfold lift, bq_delete_dataset.
  fold key. rewrite Hd.
  rewrite (tables_of_holds _ _ _ _ Htb Hin). cbn [orb fst snd].
  split; [split; reflexivity|].
  cbn [bq with_bq bq_datasets bq_tables].
  split; [reflexivity|]. split; [apply lookup_delete_eq|]. split.
  - intros t Ht. apply map_lookup_filter_None. right. intros x _. cbn [fst].
    now rewrite Ht.
  - intros t Ht. destruct (bq_tables (bq w) !! t) as [x|] eqn:Hx.
    + apply map_lookup_filter_Some. auto.
    + apply map_lookup_filter_None. now left.
Qed.

Lemma delete_dataset_holding_tables_witness :
  (outcome (BigQueryClientHelper.delete_dataset bq_helper "sales" false) world_with_table
     = Raise BadRequest /\
   final (BigQueryClientHelper.delete_dataset bq_helper "sales" false) world_with_table
     = world_with_table) /\
  (outcome (BigQueryClientHelper.delete_dataset bq_helper "sales" true) world_with_table
     = Ok tt /\
   bq_datasets (bq (final (BigQueryClientHelper.delete_dataset bq_helper "sales" true)
                      world_with_table))
     !! resolve_dataset (BigQueryClientHelper.client bq_helper) "sales" = None /\
   (forall t, in_dataset (resolve_dataset (BigQueryClientHelper.client bq_helper) "sales") t
              = true ->
      bq_tables (bq (final (BigQueryClientHelper.delete_dataset bq_helper "sales" true)
                       world_with_table)) !! t = None) /\
   (forall t, in_dataset (resolve_dataset (BigQueryClientHelper.client bq_helper) "sales") t
              = false ->
      bq_tables (bq (final (BigQueryClientHelper.delete_dataset bq_helper "sales" true)
                       world_with_table)) !! t
        = bq_tables (bq world_with_table) !! t)).
Proof.
  apply (delete_dataset_holding_tables bq_helper "sales" world_with_table
           "acme.sales.orders"
           {| table_ref := "acme.sales.orders"; table_schema := orders_schema;
              time_partitioning := None; clustering_fields := None;
              view_query := None; table_etag := Some 8%nat |}).
  - vm_compute. eauto.
  - vm_compute. reflexivity.
  - vm_compute. reflexivity.
Defined.





(** ** storage.py *)

(** X7.  delete_bucket deletes an empty bucket only.  On a bucket that still
    holds a blob it raises Conflict and changes nothing; on an empty bucket it
    succeeds, the bucket is gone and every other bucket is as before. *)
Theorem delete_bucket_only_when_empty (self : GCSClientHelper.t) (name : string)
    (w : World) (blobs : gmap string (list byte)) :
  let delete := GCSClientHelper.delete_bucket self name in
  gcs_buckets (gcs w) !! name = Some blobs ->
  (blobs <> ∅ -> outcome delete w = Raise Conflict /\ final delete w = w) /\
  (blobs = ∅ ->
   outcome delete w = Ok tt /\
   gcs_buckets (gcs (final delete w)) !! name = None /\
   forall other, other <> name ->
     gcs_buckets (gcs (final delete w)) !! other = gcs_buckets (gcs w) !! other).
Proof.
  intros delete Hb. subst delete. unfold GCSClientHelper.delete_bucket.
  assert (H1 : handle (StorageGetBucket name) w = (Ok {| bucket_name := name |}, w)).
  { cbn [handle]. unfold lift, gcs_get_bucket. now rewrite Hb. }
  unfold outcome, final. run_ok H1. rewrite run_vis_ret.
  cbn [handle]. unfold lift, gcs_bucket_delete. cbn [bucket_name]. rewrite Hb.
  split.
  - intros Hne. apply map_size_non_empty_iff, Nat.eqb_neq in Hne. rewrite Hne.
    split; reflexivity.
  - intros ->. rewrite map_size_empty. cbn [Nat.eqb fst snd add_event gcs with_gcs gcs_buckets].
    split; [reflexivity|]. split; [apply lookup_delete_eq|].
    intros other Hne. now apply lookup_delete_ne.
Qed.

Lemma delete_bucket_only_when_empty_witness :
  (<["in.csv" := list_byte_of_string "1,x"]> (∅ : gmap string (list byte)) <> ∅ ->
   outcome (GCSClientHelper.delete_bucket gcs_helper "landing") world_with_buckets
     = Raise Conflict /\
   final (GCSClientHelper.delete_bucket gcs_helper "landing") world_with_buckets
     = world_with_buckets) /\
  (<["in.csv" := list_byte_of_string "1,x"]> (∅ : gmap string (list byte)) = ∅ ->
   outcome (GCSClientHelper.delete_bucket gcs_helper "landing") world_with_buckets = Ok tt /\
   gcs_buckets (gcs (final (GCSClientHelper.delete_bucket gcs_helper "landing")
                       world_with_buckets)) !! "landing" = None /\
   forall other, other <> "landing" ->
     gcs_buckets (gcs (final (GCSClientHelper.delete_bucket gcs_helper "landing")
                         world_with_buckets)) !! other
       = gcs_buckets (gcs world_with_buckets) !! other).
Proof.
  exact (delete_bucket_only_when_empty gcs_helper "landing" world_with_buckets
           (<["in.csv" := list_byte_of_string "1,x"]> ∅) eq_refl).
Defined.

(** X8.  create_bucket on a free name followed by delete_bucket of the same
    name: both succeed and the buckets are exactly as before. *)
Theorem create_bucket_then_delete_bucket (self : GCSClientHelper.t) (name : string)
    (w : World) :
  let create := GCSClientHelper.create_bucket self name in
  let delete := GCSClientHelper.delete_bucket self name in
  gcs_buckets (gcs w) !! name = None ->
  outcome create w = Ok {| bucket_name := name |} /\
  outcome delete (final create w) = Ok tt /\
  gcs_buckets (gcs (final delete (final create w))) = gcs_buckets (gcs w).
Proof.
  intros create delete Hfree. subst create delete.
  set (w1 := with_gcs w {| gcs_buckets := <[name := ∅]> (gcs_buckets (gcs w)) |}).
  assert (H1 : handle (StorageCreateBucket name) w = (Ok {| bucket_name := name |}, w1)).
  { cbn [handle]. unfold lift, gcs_create_bucket. now rewrite Hfree. }
  assert (Hc : run (GCSClientHelper.create_bucket self name) w
               = (Ok {| bucket_name := name |}, w1, [ev (StorageCreateBucket name)])).
  { unfold GCSClientHelper.create_bucket. run_ok H1. reflexivity. }
  unfold outcome, final. rewrite Hc. cbn [fst snd].
  split; [reflexivity|].
  assert (H2 : handle (StorageGetBucket name) w1 = (Ok {| bucket_name := name |}, w1)).
  { cbn [handle]. unfold lift, gcs_get_bucket. cbn [w1 gcs with_gcs gcs_buckets].
    now rewrite lookup_insert_eq. }
  unfold GCSClientHelper.delete_bucket. run_ok H2. rewrite run_vis_ret.
  cbn [handle]. unfold lift, gcs_bucket_delete.
  cbn [w1 gcs with_gcs gcs_buckets bucket_name].
  rewrite lookup_insert_eq, map_size_empty.
  cbn [Nat.eqb fst snd add_event gcs with_gcs gcs_buckets].
  split; [reflexivity|]. now apply delete_insert_id.
Qed.

Lemma create_bucket_then_delete_bucket_witness :
  outcome (GCSClientHelper.create_bucket gcs_helper "scratch") world_with_buckets
    = Ok {| bucket_name := "scratch" |} /\
  outcome (GCSClientHelper.delete_bucket gcs_helper "scratch")
    (final (GCSClientHelper.create_bucket gcs_helper "scratch") world_with_buckets) = Ok tt /\
  gcs_buckets
    (gcs (final (GCSClientHelper.delete_bucket gcs_helper "scratch")
            (final (GCSClientHelper.create_bucket gcs_helper "scratch") world_with_buckets)))
    = gcs_buckets (gcs world_with_buckets).
Proof.
  exact (create_bucket_then_delete_bucket gcs_helper "scratch" world_with_buckets eq_refl).
Defined.

Lemma blob_content_inv (w : World) (bucket name : string) (content : list byte) :
  blob_content w bucket name = Some content ->
  exists blobs, gcs_buckets (gcs w) !! bucket = Some blobs /\ blobs !! name = Some content.
Proof.
  unfold blob_content. destruct (gcs_buckets (gcs w) !! bucket) as [blobs|]; [|discriminate].
  cbn. eauto.
Qed.

(** What move_blob leaves when all four calls return: the buckets after the
    copy, with the source blob deleted. *)
Lemma run_move_blob (self : GCSClientHelper.t) (src src_blob dst dst_blob : string)
    (w : World) (src_blobs dst_blobs : gmap string (list byte)) (content : list byte) :
  gcs_buckets (gcs w) !! src = Some src_blobs ->
  src_blobs !! src_blob = Some content ->
  gcs_buckets (gcs w) !! dst = Some dst_blobs ->
  (src, src_blob) <> (dst, dst_blob) ->
  let copied := <[dst := <[dst_blob := content]> dst_blobs]> (gcs_buckets (gcs w)) in
  exists sb,
    copied !! src = Some sb /\ sb !! src_blob = Some content /\
    fst (run (GCSClientHelper.move_blob self src src_blob dst dst_blob) w)
      = (Ok tt, with_gcs w {| gcs_buckets := <[src := delete src_blob sb]> copied |}).
Proof.
  intros Hsrc Hblob Hdst Hne copied.
  assert (Hsb : exists sb, copied !! src = Some sb /\ sb !! src_blob = Some content).
  { subst copied. destruct (decide (dst = src)) as [-> | Hd].
    - rewrite lookup_insert_eq. eexists. split; [reflexivity|].
      assert (dst_blobs = src_blobs) as -> by congruence.
      rewrite lookup_insert_ne; [exact Hblob|]. congruence.
    - rewrite lookup_insert_ne by exact Hd. eauto. }
  destruct Hsb as (sb & Hsb & Hsbb). exists sb. split; [exact Hsb|]. split; [exact Hsbb|].
  set (w3 := with_gcs w {| gcs_buckets := copied |}).
  assert (H1 : handle (StorageGetBucket src) w = (Ok {| bucket_name := src |}, w)).
  { cbn [handle]. unfold lift, gcs_get_bucket. now rewrite Hsrc. }
  assert (H2 : handle (StorageGetBucket dst) w = (Ok {| bucket_name := dst |}, w)).
  { cbn [handle]. unfold lift, gcs_get_bucket. now rewrite Hdst. }
  assert (H3 : handle (BucketCopyBlob {| bucket_name := src |}
                         {| blob_bucket := src; blob_name := src_blob |}
                         {| bucket_name := dst |} dst_blob) w
               = (Ok {| blob_bucket := dst; blob_name := dst_blob |}, w3)).
  { cbn [handle]. unfold lift, gcs_copy_blob. cbn [blob_bucket blob_name bucket_name].
    now rewrite Hsrc, Hblob, Hdst. }
  assert (H4 : handle (BlobDelete {| blob_bucket := src; blob_name := src_blob |}) w3
               = (Ok tt, with_gcs w {| gcs_buckets := <[src := delete src_blob sb]> copied |})).
  { cbn [handle]. unfold lift, gcs_blob_delete.
    cbn [w3 gcs with_gcs gcs_buckets blob_bucket blob_name].
    now rewrite Hsb, Hsbb. }
  unfold GCSClientHelper.move_blob, GCSClientHelper.bucket_blob.
  run_ok H1. run_ok H2. cbn [bucket_name]. run_ok H3. run_ok H4. reflexivity.
Qed.

(** X9.  A move to another place: when the source blob and the destination
    bucket exist and the destination is not the source itself, move_blob
    succeeds, the destination blob holds the source's content, the source blob
    is gone, and every other blob is as before. *)
Theorem move_blob_moves (self : GCSClientHelper.t) (src src_blob dst dst_blob : string)
    (w : World) (content : list byte) :
  let move := GCSClientHelper.move_blob self src src_blob dst dst_blob in
  blob_content w src src_blob = Some content ->
  is_Some (gcs_buckets (gcs w) !! dst) ->
  (src, src_blob) <> (dst, dst_blob) ->
  outcome move w = Ok tt /\
  blob_content (final move w) dst dst_blob = Some content /\
  blob_content (final move w) src src_blob = None /\
  forall bucket name, (bucket, name) <> (src, src_blob) -> (bucket, name) <> (dst, dst_blob) ->
    blob_content (final move w) bucket name = blob_content w bucket name.
Proof.
  intros move Hcontent [dst_blobs Hdst] Hne. subst move.
  destruct (blob_content_inv _ _ _ _ Hcontent) as (src_blobs & Hsrc & Hblob).
  destruct (run_move_blob self src src_blob dst dst_blob w src_blobs dst_blobs content
              Hsrc Hblob Hdst Hne) as (sb & Hsb & Hsbb & Hrun).
  unfold outcome, final. rewrite Hrun. cbn [fst snd].
  split; [reflexivity|].
  unfold blob_content. cbn [gcs with_gcs gcs_buckets].
  destruct (decide (dst = src)) as [-> | Hd].
  - rewrite lookup_insert_eq in Hsb. injection Hsb as <-.
    rewrite !lookup_insert_eq. cbn.
    assert (Hnb : dst_blob <> src_blob) by congruence.
    split; [|split].
    + rewrite lookup_delete_ne by congruence. apply lookup_insert_eq.
    + apply lookup_delete_eq.
    + intros bucket name Hn1 Hn2.
      destruct (decide (bucket = src)) as [-> | Hb].
      * rewrite lookup_insert_eq, Hdst. cbn.
        rewrite lookup_delete_ne by congruence.
        rewrite lookup_insert_ne by congruence. reflexivity.
      * rewrite !lookup_insert_ne by congruence. reflexivity.
  - rewrite lookup_insert_ne in Hsb by exact Hd.
    assert (sb = src_blobs) as -> by congruence.
    split; [|split].
    + rewrite lookup_insert_ne by congruence. rewrite lookup_insert_eq. cbn.
      apply lookup_insert_eq.
    + rewrite lookup_insert_eq. cbn. apply lookup_delete_eq.
    + intros bucket name Hn1 Hn2.
      destruct (decide (bucket = src)) as [-> | Hb].
      * rewrite lookup_insert_eq, Hsrc. cbn. rewrite lookup_delete_ne by congruence.
        reflexivity.
      * rewrite lookup_insert_ne by congruence.
        destruct (decide (bucket = dst)) as [-> | Hb'].
        -- rewrite lookup_insert_eq, Hdst. cbn.
           rewrite lookup_insert_ne by congruence. reflexivity.
        -- rewrite lookup_insert_ne by congruence. reflexivity.
Qed.

Lemma move_blob_moves_witness :
  outcome (GCSClientHelper.move_blob gcs_helper "landing" "in.csv" "archive" "2024/in.csv")
    world_with_buckets = Ok tt /\
  blob_content
    (final (GCSClientHelper.move_blob gcs_helper "landing" "in.csv" "archive" "2024/in.csv")
       world_with_buckets) "archive" "2024/in.csv" = Some (list_byte_of_string "1,x") /\
  blob_content
    (final (GCSClientHelper.move_blob gcs_helper "landing" "in.csv" "archive" "2024/in.csv")
       world_with_buckets) "landing" "in.csv" = None /\
  forall bucket name,
    (bucket, name) <> ("landing", "in.csv") -> (bucket, name) <> ("archive", "2024/in.csv") ->
    blob_content
      (final (GCSClientHelper.move_blob gcs_helper "landing" "in.csv" "archive" "2024/in.csv")
         world_with_buckets) bucket name
      = blob_content world_with_buckets bucket name.
Proof.
  apply (move_blob_moves gcs_helper "landing" "in.csv" "archive" "2024/in.csv"
           world_with_buckets (list_byte_of_string "1,x")).
  - reflexivity.
  - vm_compute. eauto.
  - intros H. discriminate H.
Defined.

(** X10.  A move of a blob onto itself (same bucket, same name) destroys it:
    the copy rewrites the blob in place and the delete of the source then
    removes it.  The helper returns normally and the blob is gone. *)
Theorem move_blob_onto_itself_deletes (self : GCSClientHelper.t) (bucket name : string)
    (w : World) (content : list byte) :
  let move := GCSClientHelper.move_blob self bucket name bucket name in
  blob_content w bucket name = Some content ->
  outcome move w = Ok tt /\
  blob_content (final move w) bucket name = None.
Proof.
  intros move Hcontent. subst move.
  destruct (blob_content_inv _ _ _ _ Hcontent) as (blobs & Hb & Hblob).
  set (copied := <[bucket := <[name := content]> blobs]> (gcs_buckets (gcs w))).
  set (w3 := with_gcs w {| gcs_buckets := copied |}).
  assert (H1 : handle (StorageGetBucket bucket) w = (Ok {| bucket_name := bucket |}, w)).
  { cbn [handle]. unfold lift, gcs_get_bucket. now rewrite Hb. }
  assert (H3 : handle (BucketCopyBlob {| bucket_name := bucket |}
                         {| blob_bucket := bucket; blob_name := name |}
                         {| bucket_name := bucket |} name) w
               = (Ok {| blob_bucket := bucket; blob_name := name |}, w3)).
  { cbn [handle]. unfold lift, gcs_copy_blob. cbn [blob_bucket blob_name bucket_name].
    now rewrite Hb, Hblob. }
  assert (H4 : handle (BlobDelete {| blob_bucket := bucket; blob_name := name |}) w3
               = (Ok tt, with_gcs w {| gcs_buckets :=
                                         <[bucket := delete name (<[name := content]> blobs)]>
                                           copied |})).
  { cbn [handle]. unfold lift, gcs_blob_delete.
    cbn [w3 gcs with_gcs gcs_buckets blob_bucket blob_name]. unfold copied.
    now rewrite !lookup_insert_eq. }
  unfold outcome, final, GCSClientHelper.move_blob, GCSClientHelper.bucket_blob.
  run_ok H1. run_ok H1. cbn [bucket_name]. run_ok H3. run_ok H4.
  cbn [run add_event fst snd].
  split; [reflexivity|].
  unfold blob_content. cbn [gcs with_gcs gcs_buckets].
  rewrite lookup_insert_eq. cbn. apply lookup_delete_eq.
Qed.

Lemma move_blob_onto_itself_deletes_witness :
  outcome (GCSClientHelper.move_blob gcs_helper "landing" "in.csv" "landing" "in.csv")
    world_with_buckets = Ok tt /\
  blob_content
    (final (GCSClientHelper.move_blob gcs_helper "landing" "in.csv" "landing" "in.csv")
       world_with_buckets) "landing" "in.csv" = None.
Proof.
  exact (move_blob_onto_itself_deletes gcs_helper "landing" "in.csv" world_with_buckets
           (list_byte_of_string "1,x") eq_refl).
Defined.

(** X11.  A move that cannot be made changes nothing: when the source blob
    does not exist, or the destination bucket does not, move_blob raises
    NotFound, nothing has been copied and nothing deleted. *)
Theorem move_blob_fails_cleanly (self : GCSClientHelper.t)
    (src src_blob dst dst_blob : string) (w : World) :
  let move := GCSClientHelper.move_blob self src src_blob dst dst_blob in
  blob_content w src src_blob = None \/ gcs_buckets (gcs w) !! dst = None ->
  outcome move w = Raise NotFound /\ final move w = w.
Proof.
  intros move Hmissing. subst move.
  assert (Hrun : fst (run (GCSClientHelper.move_blob self src src_blob dst dst_blob) w)
                 = (Raise NotFound, w)).
  { unfold GCSClientHelper.move_blob, GCSClientHelper.bucket_blob.
    destruct (gcs_buckets (gcs w) !! src) as [src_blobs|] eqn:Hsrc.
    - assert (H1 : handle (StorageGetBucket src) w = (Ok {| bucket_name := src |}, w)).
      { cbn [handle]. unfold lift, gcs_get_bucket. now rewrite Hsrc. }
      run_ok H1.
      destruct (gcs_buckets (gcs w) !! dst) as [dst_blobs|] eqn:Hdst.
      + assert (H2 : handle (StorageGetBucket dst) w = (Ok {| bucket_name := dst |}, w)).
        { cbn [handle]. unfold lift, gcs_get_bucket. now rewrite Hdst. }
        run_ok H2. cbn [bucket_name].
        destruct Hmissing as [Hnone | Hnone]; [|discriminate].
        unfold blob_content in Hnone. rewrite Hsrc in Hnone. cbn in Hnone.
        assert (H3 : handle (BucketCopyBlob {| bucket_name := src |}
                               {| blob_bucket := src; blob_name := src_blob |}
                               {| bucket_name := dst |} dst_blob) w
                     = (@Raise Blob NotFound, w)).
        { cbn [handle]. unfold lift, gcs_copy_blob.
          cbn [blob_bucket blob_name bucket_name]. now rewrite Hsrc, Hnone. }
        run_raise H3. reflexivity.
      + assert (H2 : handle (StorageGetBucket dst) w = (@Raise Bucket NotFound, w)).
        { cbn [handle]. unfold lift, gcs_get_bucket. now rewrite Hdst. }
        run_raise H2. reflexivity.
    - assert (H1 : handle (StorageGetBucket src) w = (@Raise Bucket NotFound, w)).
      { cbn [handle]. unfold lift, gcs_get_bucket. now rewrite Hsrc. }
      run_raise H1. reflexivity. }
  unfold outcome, final. rewrite Hrun. split; reflexivity.
Qed.

Lemma move_blob_fails_cleanly_witness :
  outcome (GCSClientHelper.move_blob gcs_helper "landing" "absent.csv" "archive" "x.csv")
    world_with_buckets = Raise NotFound /\
  final (GCSClientHelper.move_blob gcs_helper "landing" "absent.csv" "archive" "x.csv")
    world_with_buckets = world_with_buckets.
Proof.
  apply (move_blob_fails_cleanly gcs_helper "landing" "absent.csv" "archive" "x.csv"
           world_with_buckets).
  left. reflexivity.
Defined.


(** ** pubsub.py *)



Lemma take_length_take {A} (n : nat) (l : list A) :
  take (length (take n l)) l = take n l.
Proof.
  rewrite length_take. destruct (Nat.le_gt_cases n (length l)) as [Hle | Hgt].
  - now rewrite Nat.min_l.
  - rewrite Nat.min_r by lia. now rewrite !take_ge by lia.
Qed.

Lemma drop_length_take {A} (n : nat) (l : list A) :
  drop (length (take n l)) l = drop n l.
Proof.
  rewrite length_take. destruct (Nat.le_gt_cases n (length l)) as [Hle | Hgt].
  - now rewrite Nat.min_l.
  - rewrite Nat.min_r by lia. now rewrite !drop_ge by lia.
Qed.

(** X14.  pull_messages consumes the backlog in order: the payloads it
    returns are the decoded first messages of the backlog, in the backlog's
    order, and afterwards the backlog starts right behind them, so a later
    pull never returns one of them again. *)
Theorem pull_messages_consumes_backlog (self : PubSubClientHelper.t)
    (subscription_id : string) (max_messages : Z) (w : World) (sub : SubscriptionState)
    (messages : list string) :
  let pull := PubSubClientHelper.pull_messages self subscription_id max_messages in
  let path := subscription_path (PubSubClientHelper.project_id self) subscription_id in
  subscriptions (pubsub w) !! path = Some sub ->
  outcome pull w = Ok messages ->
  map_result (fun msg => decode_utf8 (data msg)) (take (length messages) (backlog sub))
    = Ok messages /\
  exists sub',
    subscriptions (pubsub (final pull w)) !! path = Some sub' /\
    backlog sub' = drop (length messages) (backlog sub).
Proof.
  intros pull path Hsub. subst pull.
  unfold PubSubClientHelper.pull_messages, perform. fold path. cbn [bind].
  rewrite outcome_vis, final_vis.
  destruct (handle (SubscriberPull path max_messages) w) as [[delivered | e] w1] eqn:H1;
    [|discriminate].
  destruct (handle_pull_ok _ _ _ _ _ H1) as (sub0 & Hsub0 & Hmax & Hdel & Hw1).
  assert (sub0 = sub) as -> by congruence.
  destruct (map_result (fun msg => decode_utf8 (data msg)) delivered) as [msgs | e] eqn:Hdec;
    cbn [of_result bind]; [|discriminate].
  rewrite outcome_vis, final_vis.
  destruct (handle (SubscriberAcknowledge path (map ack_id delivered)) w1)
    as [[u | e] w2] eqn:H2; [|discriminate].
  unfold outcome, final. cbn [run fst snd]. intros [= <-].
  destruct (handle_acknowledge_ok _ _ _ _ _ H2) as (sub1 & Hsub1 & Hids & Hw2).
  rewrite Hw1 in Hsub1. cbn [pubsub with_pubsub subscriptions] in Hsub1.
  rewrite lookup_insert_eq in Hsub1. injection Hsub1 as <-.
  rewrite (map_result_length _ _ _ Hdec), Hdel, take_length_take, drop_length_take.
  split; [now rewrite <- Hdel|].
  eexists. split.
  - rewrite Hw2. cbn [pubsub with_pubsub subscriptions]. apply lookup_insert_eq.
  - reflexivity.
Qed.

(** X15.  create_topic and create_subscription name the topic the same way:
    after create_topic(topic_id), whether it created the topic or raised
    because the topic was there, create_subscription(topic_id,
    subscription_id) on a free subscription name succeeds and binds the
    subscription, with nothing waiting, to that topic. *)
Theorem create_topic_then_create_subscription (self : PubSubClientHelper.t)
    (topic_id subscription_id : string) (w : World) :
  let w1 := final (PubSubClientHelper.create_topic self topic_id) w in
  let subscribe := PubSubClientHelper.create_subscription self topic_id subscription_id in
  let name := subscription_path (PubSubClientHelper.project_id self) subscription_id in
  let topic := topic_path (PubSubClientHelper.project_id self) topic_id in
  subscriptions (pubsub w) !! name = None ->
  outcome subscribe w1
    = Ok {| subscription_name := name; subscription_topic := topic |} /\
  subscriptions (pubsub (final subscribe w1)) !! name
    = Some {| sub_topic := topic; backlog := []; outstanding := []; acked := [] |}.
Proof.
  intros w1 subscribe name topic Hfree. subst subscribe.
  assert (Hw1 : topic ∈ topics (pubsub w1) /\ subscriptions (pubsub w1) !! name = None).
  { subst w1. unfold PubSubClientHelper.create_topic, final, perform. fold topic.
    cbn [bind run handle]. unfold lift, pubsub_create_topic.
    destruct (decide (topic ∈ topics (pubsub w))) as [Hin | Hout]; cbn [fst snd add_event].
    - auto.
    - cbn [pubsub with_pubsub topics subscriptions]. split; [set_solver | exact Hfree]. }
  destruct Hw1 as [Htopic Hsub].
  unfold PubSubClientHelper.create_subscription. fold topic. fold name.
  unfold outcome, final, perform. cbn [bind run handle].
  unfold lift, pubsub_create_subscription. rewrite Hsub.
  destruct (decide (topic ∈ topics (pubsub w1))) as [_ | Hout]; [|contradiction].
  cbn [fst snd add_event pubsub with_pubsub subscriptions].
  split; [reflexivity | apply lookup_insert_eq].
Qed.


Lemma pull_messages_consumes_backlog_witness :
  map_result (fun msg => decode_utf8 (data msg))
    (take (length ["hello"; "world"])
       [ {| ack_id := "a1"; data := list_byte_of_string "hello" |};
         {| ack_id := "a2"; data := list_byte_of_string "world" |};
         {| ack_id := "a3"; data := list_byte_of_string "again" |} ])
    = Ok ["hello"; "world"] /\
  exists sub',
    subscriptions
      (pubsub (final (PubSubClientHelper.pull_messages pubsub_helper "orders-sub" 2)
                 world_with_subscription))
      !! "projects/acme/subscriptions/orders-sub" = Some sub' /\
    backlog sub'
      = drop (length ["hello"; "world"])
          [ {| ack_id := "a1"; data := list_byte_of_string "hello" |};
            {| ack_id := "a2"; data := list_byte_of_string "world" |};
            {| ack_id := "a3"; data := list_byte_of_string "again" |} ].
Proof.
  apply (pull_messages_consumes_backlog pubsub_helper "orders-sub" 2
           world_with_subscription
           {| sub_topic := "projects/acme/topics/orders";
              backlog := [ {| ack_id := "a1"; data := list_byte_of_string "hello" |};
                           {| ack_id := "a2"; data := list_byte_of_string "world" |};
                           {| ack_id := "a3"; data := list_byte_of_string "again" |} ];
              outstanding := [];
              acked := [] |}
           ["hello"; "world"]).
  - reflexivity.
  - vm_compute. reflexivity.
Defined.

Lemma create_topic_then_create_subscription_witness :
  outcome (PubSubClientHelper.create_subscription pubsub_helper "orders" "orders-sub")
    (final (PubSubClientHelper.create_topic pubsub_helper "orders") empty_world)
    = Ok {| subscription_name := "projects/acme/subscriptions/orders-sub";
            subscription_topic := "projects/acme/topics/orders" |} /\
  subscriptions
    (pubsub (final (PubSubClientHelper.create_subscription pubsub_helper "orders" "orders-sub")
               (final (PubSubClientHelper.create_topic pubsub_helper "orders") empty_world)))
    !! "projects/acme/subscriptions/orders-sub"
    = Some {| sub_topic := "projects/acme/topics/orders";
              backlog := []; outstanding := []; acked := [] |}.
Proof.
  exact (create_topic_then_create_subscription pubsub_helper "orders" "orders-sub"
           empty_world eq_refl).
Defined.

(** ** bigtable.py *)



(** X17.  read_row returns the empty dictionary for a missing row only: when
    the instance or the table does not exist it raises NotFound, and changes
    nothing. *)
Theorem read_row_of_absent_table (self : BigtableClientHelper.t)
    (instance_id table_id key : string) (w : World) :
  let read := BigtableClientHelper.read_row self instance_id table_id key in
  (inst ← bt_instances (bigtable w) !! instance_id; bt_tables inst !! table_id) = None ->
  outcome read w = Raise NotFound /\ final read w = w.
Proof.
  intros read Habsent. subst read.
  unfold BigtableClientHelper.read_row, BigtableClientHelper.client_instance,
    BigtableClientHelper.instance_table. cbn [bt_instance_id].
  assert (H1 : handle (TableReadRow {| bt_table_instance := instance_id;
                                       bt_table_id := table_id |} key) w
               = (@Raise (option PartialRowData) NotFound, w)).
  { cbn [handle]. unfold lift, bt_read_row. cbn [bt_table_instance bt_table_id].
    destruct (bt_instances (bigtable w) !! instance_id) as [inst|]; [|reflexivity].
    cbn in Habsent. now rewrite Habsent. }
  unfold outcome, final. run_raise H1. split; reflexivity.
Qed.

Lemma read_row_of_absent_table_witness :
  outcome (BigtableClientHelper.read_row bigtable_helper "inst" "nope" "row1") world_with_row
    = Raise NotFound /\
  final (BigtableClientHelper.read_row bigtable_helper "inst" "nope" "row1") world_with_row
    = world_with_row.
Proof.
  exact (read_row_of_absent_table bigtable_helper "inst" "nope" "row1" world_with_row eq_refl).
Defined.

(** ** Deleting subscriptions, instances and tables (pubsub.py, bigtable.py) *)



(** X19.  delete_instance takes the tables of the instance with it: on an
    existing instance it succeeds, read_row of any table of that instance
    then raises NotFound, and every other instance is as before. *)
Theorem delete_instance_drops_its_tables (self : BigtableClientHelper.t)
    (instance_id : string) (w : World) :
  let delete := BigtableClientHelper.delete_instance self instance_id in
  is_Some (bt_instances (bigtable w) !! instance_id) ->
  outcome delete w = Ok tt /\
  (forall table_id key,
     outcome (BigtableClientHelper.read_row self instance_id table_id key) (final delete w)
       = Raise NotFound) /\
  (forall other, other <> instance_id ->
     bt_instances (bigtable (final delete w)) !! other
       = bt_instances (bigtable w) !! other).
Proof.
  intros delete [inst Hinst]. subst delete.
  set (w1 := with_bigtable w {| bt_instances := delete instance_id
                                                  (bt_instances (bigtable w)) |}).
  assert (H1 : handle (InstanceDelete {| bt_instance_id := instance_id |}) w = (Ok tt, w1)).
  { cbn [handle]. unfold lift, bt_instance_delete. cbn [bt_instance_id].
    now rewrite Hinst. }
  assert (R1 : run (BigtableClientHelper.delete_instance self instance_id) w
               = (Ok tt, w1, [ev (InstanceDelete {| bt_instance_id := instance_id |})])).
  { unfold BigtableClientHelper.delete_instance, BigtableClientHelper.client_instance.
    now rewrite run_perform, H1. }
  unfold outcome, final. rewrite R1. cbn [fst snd].
  split; [reflexivity|]. split.
  - intros table_id key.
    unfold BigtableClientHelper.read_row, BigtableClientHelper.client_instance,
      BigtableClientHelper.instance_table. cbn [bt_instance_id].
    assert (H2 : handle (TableReadRow {| bt_table_instance := instance_id;
                                         bt_table_id := table_id |} key) w1
                 = (@Raise (option PartialRowData) NotFound, w1)).
    { cbn [handle]. unfold lift, bt_read_row.
      cbn [w1 bigtable with_bigtable bt_instances bt_table_instance].
      now rewrite lookup_delete_eq. }
    run_raise H2. reflexivity.
  - intros other Hne. cbn [w1 bigtable with_bigtable bt_instances].
    now apply lookup_delete_ne.
Qed.

Lemma delete_instance_drops_its_tables_witness :
  outcome (BigtableClientHelper.delete_instance bigtable_helper "inst") world_with_row
    = Ok tt /\
  (forall table_id key,
     outcome (BigtableClientHelper.read_row bigtable_helper "inst" table_id key)
       (final (BigtableClientHelper.delete_instance bigtable_helper "inst") world_with_row)
       = Raise NotFound) /\
  (forall other, other <> "inst" ->
     bt_instances
       (bigtable (final (BigtableClientHelper.delete_instance bigtable_helper "inst")
                    world_with_row)) !! other
       = bt_instances (bigtable world_with_row) !! other).
Proof.
  apply (delete_instance_drops_its_tables bigtable_helper "inst" world_with_row).
  vm_compute. eauto.
Defined.

(** X20.  delete_table removes the one table it names: on an existing table
    it succeeds, read_row of that table then raises NotFound, and read_row of
    every other table, of this or another instance, gives what it gave
    before. *)
Theorem delete_table_keeps_other_tables (self : BigtableClientHelper.t)
    (instance_id table_id : string) (w : World) :
  let delete := BigtableClientHelper.delete_table self instance_id table_id in
  is_Some (inst ← bt_instances (bigtable w) !! instance_id; bt_tables inst !! table_id) ->
  outcome delete w = Ok tt /\
  (forall key,
     outcome (BigtableClientHelper.read_row self instance_id table_id key) (final delete w)
       = Raise NotFound) /\
  (forall i t key, (i, t) <> (instance_id, table_id) ->
     outcome (BigtableClientHelper.read_row self i t key) (final delete w)
       = outcome (BigtableClientHelper.read_row self i t key) w).
Proof.
  intros delete [tbl Htbl]. subst delete.
  destruct (bt_instances (bigtable w) !! instance_id) as [inst|] eqn:Hinst;
    [|discriminate]. cbn in Htbl.
  set (inst1 := {| bt_clusters := bt_clusters inst;
                   bt_tables := delete table_id (bt_tables inst) |}).
  set (w1 := with_bigtable w {| bt_instances := <[instance_id := inst1]>
                                                  (bt_instances (bigtable w)) |}).
  assert (H1 : handle (TableDelete {| bt_table_instance := instance_id;
                                      bt_table_id := table_id |}) w = (Ok tt, w1)).
  { cbn [handle]. unfold lift, bt_table_delete. cbn [bt_table_instance bt_table_id].
    now rewrite Hinst, Htbl. }
  assert (R1 : run (BigtableClientHelper.delete_table self instance_id table_id) w
               = (Ok tt, w1, [ev (TableDelete {| bt_table_instance := instance_id;
                                                 bt_table_id := table_id |})])).
  { unfold BigtableClientHelper.delete_table, BigtableClientHelper.client_instance,
      BigtableClientHelper.instance_table. cbn [bt_instance_id].
    now rewrite run_perform, H1. }
  assert (Hread : forall i t key v,
             outcome (BigtableClientHelper.read_row self i t key) v
             = match fst (bt_read_row {| bt_table_instance := i; bt_table_id := t |} key
                            (bigtable v)) with
               | Ok row => Ok (match row with Some r => to_dict r | None => ∅ end)
               | Raise e => Raise e
               end).
  { intros i t key v.
    unfold outcome, BigtableClientHelper.read_row, BigtableClientHelper.client_instance,
      BigtableClientHelper.instance_table, perform. cbn [bt_instance_id bind run handle].
    unfold lift.
    destruct (bt_read_row _ key (bigtable v)) as [[row|e] [s'|]]; reflexivity. }
  unfold final. rewrite R1. unfold outcome at 1. rewrite R1. cbn [fst snd].
  split; [reflexivity|]. split.
  - intros key. rewrite Hread. unfold bt_read_row.
    cbn [w1 bigtable with_bigtable bt_instances bt_table_instance bt_table_id].
    rewrite lookup_insert_eq. cbn [inst1 bt_tables].
    now rewrite lookup_delete_eq.
  - intros i t key Hne. rewrite !Hread. unfold bt_read_row.
    cbn [w1 bigtable with_bigtable bt_instances bt_table_instance bt_table_id].
    destruct (decide (i = instance_id)) as [-> | Hi].
    + rewrite lookup_insert_eq, Hinst. cbn [inst1 bt_tables].
      rewrite lookup_delete_ne by congruence. reflexivity.
    + rewrite lookup_insert_ne by congruence. reflexivity.
Qed.

Lemma delete_table_keeps_other_tables_witness :
  outcome (BigtableClientHelper.delete_table bigtable_helper "inst" "events") world_with_row
    = Ok tt /\
  (forall key,
     outcome (BigtableClientHelper.read_row bigtable_helper "inst" "events" key)
       (final (BigtableClientHelper.delete_table bigtable_helper "inst" "events")
          world_with_row) = Raise NotFound) /\
  (forall i t key, (i, t) <> ("inst", "events") ->
     outcome (BigtableClientHelper.read_row bigtable_helper i t key)
       (final (BigtableClientHelper.delete_table bigtable_helper "inst" "events")
          world_with_row)
       = outcome (BigtableClientHelper.read_row bigtable_helper i t key) world_with_row).
Proof.
  apply (delete_table_keeps_other_tables bigtable_helper "inst" "events" world_with_row).
  vm_compute. eauto.
Defined.

(** ** redis.py *)



(** ** kubernetes.py *)

(** X22.  delete_pod takes the namespace first and the pod name second and
    hands them to the client the other way round, as the client expects: on
    an existing pod it succeeds and removes the pod of that name in that
    namespace and no other, so a pod whose name and namespace are the two
    strings swapped stays. *)
Theorem delete_pod_removes_the_named_pod (self : KubernetesClientHelper.t)
    (namespace pod_name : string) (w : World) :
  let delete := KubernetesClientHelper.delete_pod self namespace pod_name in
  (namespace, pod_name) ∈ k8s_pods (k8s w) ->
  outcome delete w = Ok tt /\
  forall ns name,
    (ns, name) ∈ k8s_pods (k8s (final delete w))
    <-> (ns, name) ∈ k8s_pods (k8s w) /\ (ns, name) <> (namespace, pod_name).
Proof.
  intros delete Hin. subst delete.
  unfold KubernetesClientHelper.delete_pod, outcome, final. rewrite run_perform.
  cbn [fst snd handle]. unfold lift, k8s_delete_pod.
  destruct (decide ((namespace, pod_name) ∈ k8s_pods (k8s w))) as [_ | Hout];
    [|contradiction].
  cbn [fst snd k8s with_k8s k8s_pods].
  split; [reflexivity|]. intros ns name. set_solver.
Qed.

Lemma delete_pod_removes_the_named_pod_witness :
  outcome (KubernetesClientHelper.delete_pod k8s_helper "prod" "web") world_with_pods
    = Ok tt /\
  forall ns name,
    (ns, name) ∈ k8s_pods (k8s (final (KubernetesClientHelper.delete_pod k8s_helper
                                         "prod" "web") world_with_pods))
    <-> (ns, name) ∈ k8s_pods (k8s world_with_pods) /\ (ns, name) <> ("prod", "web").
Proof.
  apply (delete_pod_removes_the_named_pod k8s_helper "prod" "web" world_with_pods).
  apply (bool_decide_unpack _). vm_compute. exact I.
Defined.

(** ** utils.py *)

Lemma upto_last_slash_no_slash (p : string) :
  contains_char slash p = false -> upto_last_slash p = "".
Proof.
  induction p as [|c rest IH]; [reflexivity|].
  cbn [contains_char upto_last_slash]. intros H.
  apply orb_false_iff in H as [Hc Hrest].
  rewrite Hrest. rewrite Ascii.eqb_sym in Hc. now rewrite Hc.
Qed.

Lemma dirname_no_slash (p : string) :
  contains_char slash p = false -> dirname p = "".
Proof.
  intros H. unfold dirname. now rewrite (upto_last_slash_no_slash p H).
Qed.

Lemma rstrip_slash_empty (s : string) :
  rstrip_slash s = "" -> all_slashes s = true.
Proof.
  induction s as [|c rest IH]; [reflexivity|].
  cbn [rstrip_slash all_slashes].
  destruct (rstrip_slash rest) as [|d r]; [|discriminate].
  destruct (Ascii.eqb c slash); [|discriminate].
  intros _. now rewrite IH.
Qed.

Lemma dirname_with_slash (p : string) :
  contains_char slash p = true -> dirname p <> "".
Proof.
  intros H.
  assert (Hhead : upto_last_slash p <> "").
  { destruct p as [|c rest]; [discriminate|].
    cbn [contains_char] in H. cbn [upto_last_slash].
    destruct (contains_char slash rest); [discriminate|].
    rewrite orb_false_r, Ascii.eqb_sym in H. rewrite H. discriminate. }
  unfold dirname.
  destruct (all_slashes (upto_last_slash p)) eqn:Hall; [exact Hhead|].
  intros Hstrip. apply rstrip_slash_empty in Hstrip. congruence.
Qed.

(** [os.makedirs] only adds directories at paths that held nothing. *)
Lemma mkdirs_walk_keeps (segs : list string) :
  forall (t : gmap (list string) node) (cur : list string) (r : result unit)
         (t' : gmap (list string) node),
    mkdirs_walk t cur segs = (r, t') ->
    forall q, t' !! q = t !! q \/ (t !! q = None /\ t' !! q = Some Dir).
Proof.
  induction segs as [|seg rest IH]; intros t cur r t' Hwalk q.
  - cbn in Hwalk. injection Hwalk as _ <-. now left.
  - cbn [mkdirs_walk] in Hwalk.
    destruct (is_dot seg); [now apply (IH _ _ _ _ Hwalk)|].
    destruct (is_dotdot seg); [now apply (IH _ _ _ _ Hwalk)|].
    destruct (t !! (cur ++ [seg])%list) as [[|content]|] eqn:Hseg.
    + now apply (IH _ _ _ _ Hwalk).
    + injection Hwalk as _ <-. now left.
    + destruct (IH _ _ _ _ Hwalk q) as [Hsame | [Hnone Hdir]].
      * destruct (decide (q = (cur ++ [seg])%list)) as [-> | Hne].
        -- rewrite lookup_insert_eq in Hsame. right. now split.
        -- rewrite lookup_insert_ne in Hsame by congruence. now left.
      * destruct (decide (q = (cur ++ [seg])%list)) as [-> | Hne].
        -- now rewrite lookup_insert_eq in Hnone.
        -- rewrite lookup_insert_ne in Hnone by congruence. right. now split.
Qed.

Lemma handle_makedirs_keeps (name : string) (exist_ok : bool) (w w1 : World)
    (r : result unit) :
  handle (OsMakedirs name exist_ok) w = (r, w1) ->
  forall q, nodes (fs w1) !! q = nodes (fs w) !! q \/
            (nodes (fs w) !! q = None /\ nodes (fs w1) !! q = Some Dir).
Proof.
  cbn [handle]. unfold lift, fs_makedirs.
  destruct name as [|c rest].
  - intros [= _ <-] q. now left.
  - destruct (negb exist_ok && is_ok _).
    + intros [= _ <-] q. now left.
    + destruct (mkdirs_walk _ _ _) as [r0 t] eqn:Hwalk.
      intros [= _ <-] q. cbn [fs with_fs nodes].
      exact (mkdirs_walk_keeps _ _ _ _ _ Hwalk q).
Qed.

Lemma write_target_not_dir (s : FsState) (name : string) (p : list string) :
  write_target s name = Ok p -> nodes s !! p <> Some Dir.
Proof.
  unfold write_target. destruct name as [|c rest]; [discriminate|].
  cbv zeta.
  destruct (walk _ _ _) as [dir|e]; [|discriminate].
  destruct (is_dot _ || is_dotdot _); [discriminate|].
  destruct (nodes s !! _) as [[|content]|] eqn:Hleaf; [discriminate| |];
    intros Heq;
    match type of Hleaf with
    | nodes s !! ?x = _ => assert (Hp : x = p) by congruence
    end; subst p; congruence.
Qed.

(** What [open] for writing followed by one [write] leaves. *)
Lemma handle_open_write (name : string) (mode : open_mode) (content : list byte)
    (w : World) :
  match write_target (fs w) name with
  | Ok p =>
      handle (OpenFile name mode) w
        = (Ok {| fh_path := p |},
           with_fs w {| cwd := cwd (fs w); nodes := <[p := File []]> (nodes (fs w)) |}) /\
      handle (FileWrite {| fh_path := p |} content)
        (with_fs w {| cwd := cwd (fs w); nodes := <[p := File []]> (nodes (fs w)) |})
        = (Ok tt,
           with_fs w {| cwd := cwd (fs w); nodes := <[p := File content]> (nodes (fs w)) |})
  | Raise e => handle (OpenFile name mode) w = (Raise e, w)
  end.
Proof.
  destruct (write_target (fs w) name) as [p|e] eqn:Htarget.
  - split.
    + cbn [handle]. unfold lift, fs_open. now rewrite Htarget.
    + cbn [handle]. unfold lift, fs_write. cbn [fs with_fs nodes fh_path cwd].
      rewrite lookup_insert_eq. cbn [app]. now rewrite insert_insert_eq.
  - cbn [handle]. unfold lift, fs_open. now rewrite Htarget.
Qed.


(** X24.  write_bytes_to_binary_file removes nothing and overwrites no other
    file: after the call, whether it returned or raised, every path holds
    what it held before, or is a directory made where nothing was, or (when
    the call returned) is the file written, which holds exactly the given
    bytes and was not a directory before. *)
Theorem write_bytes_to_binary_file_removes_nothing (self : ZipExtractor.t)
    (file_bytes : list byte) (file_name : string) (w : World) :
  let write := ZipExtractor.write_bytes_to_binary_file self file_bytes file_name in
  forall q,
    nodes (fs (final write w)) !! q = nodes (fs w) !! q \/
    (nodes (fs w) !! q = None /\ nodes (fs (final write w)) !! q = Some Dir) \/
    (nodes (fs w) !! q <> Some Dir /\
     nodes (fs (final write w)) !! q = Some (File file_bytes) /\
     outcome write w = Ok tt).
Proof.
  intros write q. subst write. unfold ZipExtractor.write_bytes_to_binary_file.
  destruct (handle (OsMakedirs (dirname file_name) true) w) as [[[]|e] w1] eqn:H1.
  - pose proof (handle_makedirs_keeps _ _ _ _ _ H1) as Hkeep.
    pose proof (handle_open_write file_name ModeWB file_bytes w1) as Hopen.
    destruct (write_target (fs w1) file_name) as [p|e] eqn:Htarget.
    + destruct Hopen as [H2 H3].
      unfold outcome, final. run_ok H1. run_ok H2. rewrite run_vis_ret, H3.
      cbn [fst snd add_event fs with_fs nodes].
      destruct (decide (q = p)) as [-> | Hne].
      * right. right. rewrite lookup_insert_eq.
        split; [|now split].
        pose proof (write_target_not_dir _ _ _ Htarget) as Hnd.
        destruct (Hkeep p) as [Hsame | [_ Hdir]]; congruence.
      * rewrite lookup_insert_ne by congruence.
        destruct (Hkeep q) as [Hsame | Hmade]; [now left | right; now left].
    + unfold outcome, final. run_ok H1. run_raise Hopen. cbn [fst snd add_event].
      destruct (Hkeep q) as [Hsame | Hmade]; [now left | right; now left].
  - pose proof (handle_makedirs_keeps _ _ _ _ _ H1) as Hkeep.
    unfold outcome, final. run_raise H1. cbn [fst snd].
    destruct (Hkeep q) as [Hsame | Hmade]; [now left | right; now left].
Qed.

(** X25.  write_bytes_to_binary_file cannot write to a bare file name.  For
    every name without a slash the directory part is empty, os.makedirs
    raises FileNotFoundError for it, and the file is neither created nor
    changed, also when it already exists. *)
Theorem write_bytes_to_binary_file_bare_name (self : ZipExtractor.t)
    (file_bytes : list byte) (file_name : string) (w : World) :
  contains_char slash file_name = false ->
  run (ZipExtractor.write_bytes_to_binary_file self file_bytes file_name) w
    = (Raise FileNotFoundError, w, [ev (OsMakedirs "" true)]).
Proof.
  intros Hbare. apply run_write_bytes_bare_name. now apply dirname_no_slash.
Qed.

Lemma write_bytes_to_binary_file_bare_name_witness :
  run (ZipExtractor.write_bytes_to_binary_file staged_extractor payload "payload.bin")
    empty_world
    = (Raise FileNotFoundError, empty_world, [ev (OsMakedirs "" true)]).
Proof.
  exact (write_bytes_to_binary_file_bare_name staged_extractor payload "payload.bin"
           empty_world eq_refl).
Defined.

(** X26.  write_bytes_to_binary_file is not all-or-nothing.  For a name with
    a directory part, when os.makedirs has made the directories and open then
    raises (the name is a directory, say), the error of open is raised and the
    directories made stay, with no file written. *)
Theorem write_bytes_to_binary_file_leaves_directories (self : ZipExtractor.t)
    (file_bytes : list byte) (file_name : string) (w : World)
    (t : gmap (list string) node) (e : exn) :
  contains_char slash file_name = true ->
  mkdirs_walk (nodes (fs w)) (start_dir (fs w) (dirname file_name))
    (split_on slash (dirname file_name)) = (Ok tt, t) ->
  write_target {| cwd := cwd (fs w); nodes := t |} file_name = Raise e ->
  run (ZipExtractor.write_bytes_to_binary_file self file_bytes file_name) w
    = (Raise e, with_fs w {| cwd := cwd (fs w); nodes := t |},
       [ev (OsMakedirs (dirname file_name) true); ev (OpenFile file_name ModeWB)]).
Proof.
  intros Hslash Hmk Htarget.
  pose proof (dirname_with_slash _ Hslash) as Hdir.
  unfold ZipExtractor.write_bytes_to_binary_file.
  set (w1 := with_fs w {| cwd := cwd (fs w); nodes := t |}).
  assert (H1 : handle (OsMakedirs (dirname file_name) true) w = (Ok tt, w1)).
  { cbn [handle]. unfold lift. now rewrite (fs_makedirs_exist_ok _ _ Hdir), Hmk. }
  pose proof (handle_open_write file_name ModeWB file_bytes w1) as H2.
  cbn [w1 fs with_fs] in H2. rewrite Htarget in H2. fold w1 in H2.
  run_ok H1. run_raise H2. reflexivity.
Qed.

Lemma write_bytes_to_binary_file_leaves_directories_witness :
  run (ZipExtractor.write_bytes_to_binary_file staged_extractor payload "reports/2024/")
    empty_world
    = (Raise IsADirectoryError,
       with_fs empty_world
         {| cwd := cwd (fs empty_world);
            nodes := <[["home"; "user"; "reports"; "2024"] := Dir]>
                       (<[["home"; "user"; "reports"] := Dir]> (nodes (fs empty_world))) |},
       [ev (OsMakedirs (dirname "reports/2024/") true);
        ev (OpenFile "reports/2024/" ModeWB)]).
Proof.
  apply (write_bytes_to_binary_file_leaves_directories staged_extractor payload
           "reports/2024/" empty_world
           (<[["home"; "user"; "reports"; "2024"] := Dir]>
              (<[["home"; "user"; "reports"] := Dir]> (nodes (fs empty_world))))
           IsADirectoryError).
  - reflexivity.
  - vm_compute. reflexivity.
  - vm_compute. reflexivity.
Defined.
